(** * Nexifit: onboarding state machine, reminder parsing and daily-plan scheduling

    A shallow embedding of the parts of [app.py] and [database_pg.py] that
    drive the WhatsApp onboarding conversation, parse reminder requests and
    register per-user daily workout jobs, together with the properties of
    the specification that concern them.

    Conventions.
    - A Python [str] is a [string] whose characters are code points below
      256; [lower], [upper], [strip] and the regular-expression classes
      follow Python's behaviour on that range.
    - A Python [dict] with string keys is a [gmap string value].
    - Calls that leave the process (the LLM, the clock, the relational
      store, the APScheduler registry, threads) are explicit: their results
      are arguments and their effects are fields of the state that a
      function returns. *)

From Stdlib Require Import ZArith QArith Ascii String List Lia Bool DecimalString.
From stdpp Require Import base option strings gmap list.

Set Warnings "-register-all".

Local Open Scope Z_scope.
Local Open Scope string_scope.

(** ** Python strings *)

Module PyStr.

Definition code (c : ascii) : N := N_of_ascii c.

Definition between (lo hi : N) (c : ascii) : bool :=
  ((lo <=? code c) && (code c <=? hi))%N.

(** [str.isspace] on one character; it is also the class [\s] of [re]. *)
Definition is_space (c : ascii) : bool :=
  between 9 13 c || between 28 32 c || (code c =? 133)%N || (code c =? 160)%N.

(** The class [\d] of [re]. *)
Definition is_digit (c : ascii) : bool := between 48 57 c.

Definition is_upper (c : ascii) : bool :=
  between 65 90 c || (between 192 222 c && negb (code c =? 215)%N).

Definition lower_char (c : ascii) : ascii :=
  if is_upper c then ascii_of_N (code c + 32) else c.

Definition upper_char (c : ascii) : ascii :=
  if between 97 122 c then ascii_of_N (code c - 32) else c.

Fixpoint lower (s : string) : string :=
  match s with
  | EmptyString => EmptyString
  | String c t => String (lower_char c) (lower t)
  end.

(** [str.upper] on one character.  Below 256 the small letters are
    [a]-[z] and [à]-[þ] without the division sign, each with its capital
    32 below; [ß] is written [SS]; the capitals of [µ] and [ÿ] lie above
    255, are no ASCII character, and are written here as the characters
    themselves. *)
Definition upper_chars (c : ascii) : string :=
  if (code c =? 223)%N then "SS"
  else if between 97 122 c || (between 224 254 c && negb (code c =? 247)%N)
  then String (ascii_of_N (code c - 32)) EmptyString
  else String c EmptyString.

Fixpoint upper (s : string) : string :=
  match s with
  | EmptyString => EmptyString
  | String c t => upper_chars c ++ upper t
  end.

Fixpoint lstrip (s : string) : string :=
  match s with
  | String c t => if is_space c then lstrip t else s
  | EmptyString => EmptyString
  end.

Fixpoint rstrip (s : string) : string :=
  match s with
  | EmptyString => EmptyString
  | String c t =>
      match rstrip t with
      | EmptyString => if is_space c then EmptyString else String c EmptyString
      | t' => String c t'
      end
  end.

Definition strip (s : string) : string := rstrip (lstrip s).

Fixpoint startswith (p s : string) : bool :=
  match p, s with
  | EmptyString, _ => true
  | String a p', String b s' => Ascii.eqb a b && startswith p' s'
  | String _ _, EmptyString => false
  end.

(** [sub in s] *)
Fixpoint contains (sub s : string) : bool :=
  startswith sub s ||
  match s with
  | EmptyString => false
  | String _ t => contains sub t
  end.

Fixpoint drop (n : nat) (s : string) : string :=
  match n, s with
  | O, _ => s
  | S n', String _ t => drop n' t
  | S _, EmptyString => EmptyString
  end.

Fixpoint take (n : nat) (s : string) : string :=
  match n, s with
  | O, _ => EmptyString
  | S n', String c t => String c (take n' t)
  | S _, EmptyString => EmptyString
  end.

(** [s.replace(a, b)] for one-character [a] and [b]. *)
Fixpoint replace_char (a b : ascii) (s : string) : string :=
  match s with
  | EmptyString => EmptyString
  | String c t => String (if Ascii.eqb c a then b else c) (replace_char a b t)
  end.

(** [s.split(sep)] for a non-empty separator: the pieces between the
    occurrences of [sep], scanned from the left. *)
Fixpoint split_aux (fuel : nat) (sep : string) (acc : string) (s : string)
  : list string :=
  match fuel with
  | O => [acc ++ s]
  | S fuel' =>
      match s with
      | EmptyString => [acc]
      | String c t =>
          if startswith sep s
          then acc :: split_aux fuel' sep EmptyString (drop (String.length sep) s)
          else split_aux fuel' sep (acc ++ String c EmptyString) t
      end
  end.

Definition split (sep s : string) : list string :=
  split_aux (S (String.length s)) sep EmptyString s.

Definition digit_val (c : ascii) : Z := Z.of_N (code c) - 48.

Fixpoint digits_val (acc : Z) (s : string) : Z :=
  match s with
  | EmptyString => acc
  | String c t => digits_val (10 * acc + digit_val c) t
  end.

(** The digits of an [int] literal: decimal digits, single underscores
    allowed between two digits. *)
Fixpoint int_body (prev_digit : bool) (acc : Z) (s : string) : option Z :=
  match s with
  | EmptyString => if prev_digit then Some acc else None
  | String c t =>
      if is_digit c then int_body true (10 * acc + digit_val c) t
      else if Ascii.eqb c "_" then
             if prev_digit then
               match t with
               | String d _ => if is_digit d then int_body false acc t else None
               | EmptyString => None
               end
             else None
      else None
  end.

(** [int(s)]: [None] stands for [ValueError]. *)
Definition int (s : string) : option Z :=
  match strip s with
  | String "+" t => int_body false 0 t
  | String "-" t => Z.opp <$> int_body false 0 t
  | t => int_body false 0 t
  end.

(** [str(n)] for an [int] *)
Definition str_of_int (n : Z) : string := NilEmpty.string_of_int (Z.to_int n).

Definition digit_char (d : Z) : ascii := ascii_of_N (Z.to_N (48 + d)).

(** [f"{n:02d}"] for [0 <= n <= 99]. *)
Definition fmt02 (n : Z) : string :=
  String (digit_char (n / 10)) (String (digit_char (n mod 10)) EmptyString).

End PyStr.

(** ** Regular expressions: the backtracking semantics of [re] *)

Module Re.

Inductive regex : Type :=
| Eps
| Chr (c : ascii)
| Cls (p : ascii -> bool)
| Seq (r1 r2 : regex)
| Alt (r1 r2 : regex)
| Star (r : regex)
| Grp (n : nat) (r : regex)
| Bol.

Definition Opt (r : regex) : regex := Alt r Eps.
Definition Plus (r : regex) : regex := Seq r (Star r).

Fixpoint Lit (s : string) : regex :=
  match s with
  | EmptyString => Eps
  | String c EmptyString => Chr c
  | String c t => Seq (Chr c) (Lit t)
  end.

(** Groups that took part in the match, most recent first. *)
Definition captures : Type := list (nat * string).

Definition group (n : nat) (cs : captures) : option string :=
  snd <$> List.find (fun e => Nat.eqb (fst e) n) cs.

Section Matcher.
Context {A : Type}.
Variable icase : bool.

Definition chr_eq (c x : ascii) : bool :=
  if icase then Ascii.eqb (PyStr.lower_char c) (PyStr.lower_char x)
  else Ascii.eqb c x.

(** [run r pos s cs k]: match [r] at offset [pos], where [s] is the rest
    of the subject; [k] is called with each way of matching, in Python's
    priority order, until one succeeds. *)
Fixpoint run (r : regex) (pos : nat) (s : string) (cs : captures)
  (k : nat -> string -> captures -> option A) {struct r} : option A :=
  match r with
  | Eps => k pos s cs
  | Chr c =>
      match s with
      | String x t => if chr_eq c x then k (S pos) t cs else None
      | EmptyString => None
      end
  | Cls p =>
      match s with
      | String x t => if p x then k (S pos) t cs else None
      | EmptyString => None
      end
  | Seq r1 r2 => run r1 pos s cs (fun pos' s' cs' => run r2 pos' s' cs' k)
  | Alt r1 r2 =>
      match run r1 pos s cs k with
      | Some a => Some a
      | None => run r2 pos s cs k
      end
  | Star r1 =>
      (fix loop (fuel : nat) (pos : nat) (s : string) (cs : captures)
         {struct fuel} : option A :=
         match fuel with
         | O => k pos s cs
         | S fuel' =>
             match run r1 pos s cs
                     (fun pos' s' cs' =>
                        if Nat.eqb pos' pos then None
                        else loop fuel' pos' s' cs') with
             | Some a => Some a
             | None => k pos s cs
             end
         end) (S (String.length s)) pos s cs
  | Grp n r1 =>
      run r1 pos s cs
        (fun pos' s' cs' => k pos' s' ((n, PyStr.take (pos' - pos) s) :: cs'))
  | Bol => if Nat.eqb pos 0 then k pos s cs else None
  end.
End Matcher.

Record match_obj : Type := MatchObj {
  m_start : nat;
  m_end : nat;
  m_rest : string;
  m_groups : captures
}.

Definition match_at (icase : bool) (r : regex) (pos : nat) (s : string)
  : option match_obj :=
  run icase r pos s [] (fun pos' s' cs' => Some (MatchObj pos pos' s' cs')).

(** [re.search(r, s)]: the leftmost match. *)
Fixpoint search_from (icase : bool) (r : regex) (pos : nat) (s : string)
  : option match_obj :=
  match match_at icase r pos s with
  | Some m => Some m
  | None =>
      match s with
      | EmptyString => None
      | String _ t => search_from icase r (S pos) t
      end
  end.

Definition search (icase : bool) (r : regex) (s : string) : option match_obj :=
  search_from icase r 0 s.

(** [re.sub(r, "", s)]: every non-overlapping match, leftmost first, is
    deleted.  An empty match deletes nothing and the scan moves on by one
    character. *)
Fixpoint sub_loop (icase : bool) (r : regex) (fuel : nat) (pos : nat)
  (s : string) : string :=
  match fuel with
  | O => s
  | S fuel' =>
      let step :=
        match s with
        | EmptyString => EmptyString
        | String c t => String c (sub_loop icase r fuel' (S pos) t)
        end in
      match match_at icase r pos s with
      | Some m =>
          if Nat.ltb pos (m_end m)
          then sub_loop icase r fuel' (m_end m) (m_rest m)
          else step
      | None => step
      end
  end.

Definition sub_empty (icase : bool) (r : regex) (s : string) : string :=
  sub_loop icase r (S (String.length s)) 0 s.

End Re.

(** ** [database_pg.py]: workout times *)

Module DatabasePg.
Import PyStr Re.

Definition digit : regex := Cls is_digit.
Definition space : regex := Cls is_space.
Definition am_pm : regex := Alt (Lit "am") (Lit "pm").

(** [r'(\d{1,2})(?::(\d{2}))?\s*(am|pm)?'] *)
Definition time_pattern : regex :=
  Seq (Grp 1 (Seq digit (Opt digit)))
    (Seq (Opt (Seq (Chr ":") (Grp 2 (Seq digit digit))))
       (Seq (Star space) (Opt (Grp 3 am_pm)))).

Definition preset_times : list (string * string) :=
  [ ("early morning", "05:00");
    ("morning", "07:00");
    ("afternoon", "14:00");
    ("evening", "18:00");
    ("night", "20:00");
    ("flexible", "07:00") ].

Definition adjust_meridiem (meridiem : option string) (hour : Z) : Z :=
  match meridiem with
  | Some mer =>
      if String.eqb mer "pm" && negb (hour =? 12)%Z then hour + 12
      else if String.eqb mer "am" && (hour =? 12)%Z then 0
      else hour
  | None => hour
  end.

Definition is_Some_b {A : Type} (o : option A) : bool :=
  match o with Some _ => true | None => false end.

Definition first_preset (time_str : string) : string :=
  match List.find (fun kv => contains (fst kv) time_str) preset_times with
  | Some kv => snd kv
  | None => "07:00"
  end.

(** The clock reading of [normalize_workout_time]: the first match of
    [time_pattern], if its hour and minute are in range. *)
Definition clock_time (time_str : string) : option string :=
  match search false time_pattern time_str with
  | Some m =>
      let hour := digits_val 0 (default EmptyString (group 1 (m_groups m))) in
      let minute :=
        match group 2 (m_groups m) with
        | Some g => if String.eqb g EmptyString then 0 else digits_val 0 g
        | None => 0
        end in
      let hour := adjust_meridiem (group 3 (m_groups m)) hour in
      if ((0 <=? hour) && (hour <=? 23) && (0 <=? minute) && (minute <=? 59))%Z
      then Some (fmt02 hour ++ ":" ++ fmt02 minute)
      else None
  | None => None
  end.

(** [normalize_workout_time(time_str)]; the argument is [None] or a
    string. *)
Definition normalize_workout_time (time_str : option string) : string :=
  match time_str with
  | None => "07:00"
  | Some EmptyString => "07:00"
  | Some raw =>
      let time_str := strip (lower raw) in
      match clock_time time_str with
      | Some t => t
      | None => first_preset time_str
      end
  end.

(** A schedule time [HH:MM] with [00 <= HH <= 23] and [00 <= MM <= 59]. *)
Definition is_hhmm (s : string) : bool :=
  match s with
  | String a (String b (String c (String d (String e EmptyString)))) =>
      is_digit a && is_digit b && Ascii.eqb c ":" && is_digit d && is_digit e
      && (10 * digit_val a + digit_val b <=? 23)%Z
      && (10 * digit_val d + digit_val e <=? 59)%Z
  | _ => false
  end.

(** An input that names neither a clock time in range nor a period of
    the day. *)
Definition unrecognized (time_str : option string) : bool :=
  match time_str with
  | None => true
  | Some raw =>
      let time_str := strip (lower raw) in
      negb (is_Some_b (clock_time time_str))
      && forallb (fun kv => negb (contains (fst kv) time_str)) preset_times
  end.

End DatabasePg.

(** ** Exceptions *)

Inductive exn : Type :=
| ValueError
| OverflowError
| TypeError
| AttributeError
| KeyError
| JSONDecodeError
| JobLookupError.

Inductive result (A : Type) : Type :=
| Ok (a : A)
| Raise (e : exn).
Arguments Ok {A} a.
Arguments Raise {A} e.

#[global] Instance result_ret : MRet result := fun A a => Ok a.

#[global] Instance result_bind : MBind result := fun A B f m =>
  match m with
  | Ok a => f a
  | Raise e => Raise e
  end.

#[global] Instance result_fmap : FMap result := fun A B f m =>
  match m with
  | Ok a => Ok (f a)
  | Raise e => Raise e
  end.

(** [try: m except Exception: h] *)
Definition try_except {A : Type} (m : result A) (h : A) : A :=
  match m with
  | Ok a => a
  | Raise _ => h
  end.

(** ** [datetime] in the fixed-offset zone [IST] *)

Module Datetime.

(** A civil time of the zone [IST = timezone(timedelta(hours=5, minutes=30))]:
    [ordinal] is [date.toordinal()], day 1 being 0001-01-01. *)
Record datetime : Type := mk_datetime {
  ordinal : Z;
  hour : Z;
  minute : Z;
  second : Z;
  microsecond : Z
}.

Definition max_ordinal : Z := 3652059.
Definition us_per_second : Z := 1000000.
Definition us_per_minute : Z := 60 * us_per_second.
Definition us_per_hour : Z := 60 * us_per_minute.
Definition us_per_day : Z := 24 * us_per_hour.

Definition validb (d : datetime) : bool :=
  ((1 <=? ordinal d) && (ordinal d <=? max_ordinal) &&
   (0 <=? hour d) && (hour d <=? 23) &&
   (0 <=? minute d) && (minute d <=? 59) &&
   (0 <=? second d) && (second d <=? 59) &&
   (0 <=? microsecond d) && (microsecond d <=? 999999))%Z.

Definition to_us (d : datetime) : Z :=
  ordinal d * us_per_day + hour d * us_per_hour + minute d * us_per_minute
  + second d * us_per_second + microsecond d.

Definition of_us (t : Z) : datetime :=
  let in_day := t mod us_per_day in
  let in_hour := in_day mod us_per_hour in
  let in_minute := in_hour mod us_per_minute in
  {| ordinal := t / us_per_day;
     hour := in_day / us_per_hour;
     minute := in_hour / us_per_minute;
     second := in_minute / us_per_second;
     microsecond := in_minute mod us_per_second |}.

(** A [timedelta], in microseconds. *)
Definition timedelta : Type := Z.

Inductive time_unit : Type := Seconds | Minutes | Hours | Days.

Definition unit_us (u : time_unit) : Z :=
  match u with
  | Seconds => us_per_second
  | Minutes => us_per_minute
  | Hours => us_per_hour
  | Days => us_per_day
  end.

(** [timedelta(<unit>=amount)] for an [int] amount: [OverflowError] when
    the day count leaves [-999999999 .. 999999999]. *)
Definition make_timedelta (u : time_unit) (amount : Z) : result timedelta :=
  let us := amount * unit_us u in
  if ((-999999999 <=? us / us_per_day) && (us / us_per_day <=? 999999999))%Z
  then Ok us else Raise OverflowError.

(** [d + td]: [OverflowError] when the date leaves year 1 .. 9999. *)
Definition add (d : datetime) (td : timedelta) : result datetime :=
  let r := of_us (to_us d + td) in
  if ((1 <=? ordinal r) && (ordinal r <=? max_ordinal))%Z
  then Ok r else Raise OverflowError.

(** [d.replace(hour=h, minute=m, second=0, microsecond=0)] *)
Definition replace_hm (d : datetime) (h m : Z) : result datetime :=
  if ((0 <=? h) && (h <=? 23) && (0 <=? m) && (m <=? 59))%Z
  then Ok {| ordinal := ordinal d; hour := h; minute := m;
             second := 0; microsecond := 0 |}
  else Raise ValueError.

Definition ltb (a b : datetime) : bool := (to_us a <? to_us b)%Z.

End Datetime.

(** ** Python values *)

Module PyVal.
Import Datetime.

(** A [float]: a finite binary64 number, given by its exact rational
    value, or one of the three values that are not numbers. *)
Inductive pyfloat : Type :=
| FFinite (q : Q)
| FNan
| FInf (negative : bool).

(** What [json.loads] can return, which is also what a session holds. *)
Inductive value : Type :=
| VNone
| VBool (b : bool)
| VInt (z : Z)
| VFloat (f : pyfloat)
| VStr (s : string)
| VDatetime (t : datetime)
| VList (l : list value)
| VDict (d : gmap string value).

(** [bool(v)] *)
Definition truthy (v : value) : bool :=
  match v with
  | VNone => false
  | VBool b => b
  | VInt z => negb (z =? 0)%Z
  | VFloat (FFinite q) => negb (Qnum q =? 0)%Z
  | VFloat _ => true
  | VStr s => negb (String.eqb s EmptyString)
  | VDatetime _ => true
  | VList l => match l with [] => false | _ => true end
  | VDict d => negb (bool_decide (d = ∅))
  end.

(** [d.get(k)] and [d.get(k, dflt)] *)
Definition get (d : gmap string value) (k : string) : value :=
  default VNone (d !! k).

Definition get_default (d : gmap string value) (k : string) (dflt : value)
  : value :=
  default dflt (d !! k).

(** [a or b] *)
Definition or_else (a b : value) : value := if truthy a then a else b.

(** [v == "lit"] for a string literal *)
Definition eq_str (v : value) (lit : string) : bool :=
  match v with
  | VStr s => String.eqb s lit
  | _ => false
  end.

(** [v < 0.5]: numbers compare by value, anything else is a
    [TypeError]. *)
Definition lt_half (v : value) : result bool :=
  match v with
  | VBool b => Ok (negb b)
  | VInt z => Ok (z <=? 0)%Z
  | VFloat (FFinite q) => Ok (2 * Qnum q <? Z.pos (Qden q))%Z
  | VFloat FNan => Ok false
  | VFloat (FInf negative) => Ok negative
  | _ => Raise TypeError
  end.

(** What the program asks of its libraries and cannot be read from the
    sources: the JSON decoder, the conversion of a [float] amount to a
    [timedelta], and the body-mass arithmetic. *)
Record env : Type := Env {
  json_loads : string -> option value;
  timedelta_float : time_unit -> pyfloat -> result timedelta;
  calculate_bmi : value -> value -> value
}.

End PyVal.

(** ** [app.py]: the regex fallback for reminders *)

Module Reminder.
Import PyStr Re Datetime.

Definition digit : regex := Cls is_digit.
Definition space : regex := Cls is_space.

Definition unit_word : regex :=
  Alt (Lit "second") (Alt (Lit "minute") (Alt (Lit "hour") (Lit "day"))).

(** [r"in\s+(\d+)\s*(second|minute|hour|day)s?"] *)
Definition relative_pattern : regex :=
  Seq (Lit "in") (Seq (Plus space) (Seq (Grp 1 (Plus digit))
    (Seq (Star space) (Seq (Grp 2 unit_word) (Opt (Chr "s")))))).

(** [r"in\s+\d+\s*(?:second|minute|hour|day)s?"] *)
Definition relative_phrase : regex :=
  Seq (Lit "in") (Seq (Plus space) (Seq (Plus digit)
    (Seq (Star space) (Seq unit_word (Opt (Chr "s")))))).

(** [r"^(remind|remind me|set reminder?)\s+(to\s+)?"] *)
Definition imperative_prefix : regex :=
  Seq Bol
    (Seq (Grp 1 (Alt (Lit "remind")
                   (Alt (Lit "remind me") (Seq (Lit "set reminde") (Opt (Chr "r"))))))
       (Seq (Plus space) (Opt (Grp 2 (Seq (Lit "to") (Plus space)))))).

Definition am_pm : regex := Alt (Lit "am") (Lit "pm").

(** [r"at\s+(\d{1,2}):(\d{2})\s*(am|pm)?"] *)
Definition absolute_pattern : regex :=
  Seq (Lit "at") (Seq (Plus space) (Seq (Grp 1 (Seq digit (Opt digit)))
    (Seq (Chr ":") (Seq (Grp 2 (Seq digit digit))
       (Seq (Star space) (Opt (Grp 3 am_pm))))))).

(** [r"at\s+\d{1,2}:\d{2}\s*(?:am|pm)?"] *)
Definition absolute_phrase : regex :=
  Seq (Lit "at") (Seq (Plus space) (Seq (Seq digit (Opt digit))
    (Seq (Chr ":") (Seq (Seq digit digit) (Seq (Star space) (Opt am_pm)))))).

(** [x.strip() or "Your reminder"] *)
Definition task_or_default (task : string) : string :=
  match strip task with
  | EmptyString => "Your reminder"
  | t => t
  end.

(** The task text: the time phrase is deleted, then the leading
    imperative. *)
Definition task_of (phrase : regex) (message : string) : string :=
  let task := sub_empty true phrase message in
  let task := sub_empty true imperative_prefix task in
  task_or_default task.

Definition unit_of (unit : string) : time_unit :=
  if contains "second" unit then Seconds
  else if contains "minute" unit then Minutes
  else if contains "hour" unit then Hours
  else Days.

Definition group_str (n : nat) (m : match_obj) : string :=
  default EmptyString (group n (m_groups m)).

(** What the fallback reads in a message before it looks at the clock. *)
Inductive time_phrase : Type :=
| InUnits (amount : Z) (unit : string)
| AtClock (hour minute : Z).

(** The two grammars of [parse_reminder_fallback], tried in order on the
    lowered and stripped message: the task and the time phrase. *)
Definition scan_reminder (message : string) : option (string * time_phrase) :=
  let message := strip (lower message) in
  match search false relative_pattern message with
  | Some m =>
      let amount := digits_val 0 (group_str 1 m) in
      let unit := group_str 2 m ++ "s" in
      let task := task_of relative_phrase message in
      Some (task, InUnits amount unit)
  | None =>
      match search true absolute_pattern message with
      | Some m =>
          let hour := digits_val 0 (group_str 1 m) in
          let minute := digits_val 0 (group_str 2 m) in
          let meridiem := lower <$> group 3 (m_groups m) in
          let hour :=
            match meridiem with
            | Some mer =>
                if String.eqb mer "pm" && negb (hour =? 12)%Z then hour + 12
                else if String.eqb mer "am" && (hour =? 12)%Z then 0
                else hour
            | None => hour
            end in
          let task := task_of absolute_phrase message in
          Some (task, AtClock hour minute)
      | None => None
      end
  end.

(** [parse_reminder_fallback(message)]; [now] is what
    [datetime.now(IST)] returns during the call.  [Ok None] is the pair
    [(None, None)]. *)
Definition parse_reminder_fallback (message : string) (now : datetime)
  : result (option (string * datetime)) :=
  match scan_reminder message with
  | Some (task, InUnits amount unit) =>
      td ← make_timedelta (unit_of unit) amount;
      remind_time ← add now td;
      Ok (Some (task, remind_time))
  | Some (task, AtClock hour minute) =>
      remind_time ← replace_hm now hour minute;
      remind_time ←
        (if ltb remind_time now
         then td ← make_timedelta Days 1; add remind_time td
         else Ok remind_time);
      Ok (Some (task, remind_time))
  | None => Ok None
  end.

Import PyVal.

(** The cleaning of the completion: a leading code fence and a [json]
    tag are removed. *)
Definition clean_response (content : string) : string :=
  let response_text := strip content in
  let response_text :=
    if startswith "```" response_text then
      let inner := nth 1 (split "```" response_text) EmptyString in
      if startswith "json" inner then drop 4 inner else inner
    else response_text in
  strip response_text.

(** [timedelta(<unit>=amount)] *)
Definition timedelta_of (E : env) (u : time_unit) (amount : value)
  : result timedelta :=
  match amount with
  | VInt z => make_timedelta u z
  | VBool b => make_timedelta u (if b then 1 else 0)
  | VFloat f => timedelta_float E u f
  | _ => Raise TypeError
  end.

(** An argument of [datetime.replace]: an [int]. *)
Definition as_int (v : value) : result Z :=
  match v with
  | VInt z => Ok z
  | VBool b => Ok (if b then 1 else 0)
  | _ => Raise TypeError
  end.

Definition relative_unit (unit : value) : option time_unit :=
  if eq_str unit "seconds" then Some Seconds
  else if eq_str unit "minutes" then Some Minutes
  else if eq_str unit "hours" then Some Hours
  else if eq_str unit "days" then Some Days
  else None.

(** The body of the [try] block of [parse_reminder_with_llm], from the
    completion on. *)
Definition llm_parse_body (E : env) (content : string) (now_ist : datetime)
  : result (option (string * datetime)) :=
  let response_text := clean_response content in
  parsed_data ←
    match json_loads E response_text with
    | Some v => Ok v
    | None => Raise JSONDecodeError
    end;
  parsed_data ←
    match (parsed_data : value) with
    | VDict d => Ok d
    | _ => Raise AttributeError
    end;
  let confidence := get_default parsed_data "confidence" (VInt 0) in
  low ← lt_half confidence;
  if (low : bool) then Ok None
  else
    task ←
      match get_default parsed_data "task" (VStr EmptyString) with
      | VStr t => Ok (strip t)
      | _ => Raise AttributeError
      end;
    if String.eqb (task : string) EmptyString || (String.length task <? 2)%nat then Ok None
    else
      remind_time ←
        (if eq_str (get parsed_data "time_type") "relative" then
           let amount := get parsed_data "relative_amount" in
           let unit := get parsed_data "relative_unit" in
           if truthy amount && truthy unit then
             match relative_unit unit with
             | Some u =>
                 td ← timedelta_of E u amount;
                 Some <$> add now_ist td
             | None => Ok None
             end
           else Ok None
         else if eq_str (get parsed_data "time_type") "absolute" then
           let hour := get parsed_data "absolute_hour" in
           let minute := get_default parsed_data "absolute_minute" (VInt 0) in
           let is_tomorrow := get_default parsed_data "is_tomorrow" (VBool false) in
           match hour with
           | VNone => Ok None
           | _ =>
               h ← as_int hour;
               m ← as_int minute;
               remind_time ← replace_hm now_ist h m;
               if ltb (remind_time : datetime) now_ist || truthy is_tomorrow
               then td ← make_timedelta Days 1; Some <$> add remind_time td
               else Ok (Some remind_time)
           end
         else Ok None);
      match (remind_time : option datetime) with
      | None => Ok None
      | Some t => Ok (Some (task, t))
      end.

(** [parse_reminder_with_llm(user_message, llm)].  [completion] is the
    outcome of [llm.invoke]: the text of the answer or an exception;
    every exception ends in [(None, None)]. *)
Definition parse_reminder_with_llm (E : env) (completion : result string)
  (now_ist : datetime) : option (string * datetime) :=
  try_except (content ← completion; llm_parse_body E content now_ist) None.

(** [parse_reminder_message(message, llm)]; the clock is read once in
    each parser. *)
Definition parse_reminder_message (E : env) (message : string)
  (completion : result string) (now_llm now_fallback : datetime)
  : result (option (string * datetime)) :=
  match parse_reminder_with_llm E completion now_llm with
  | Some (task, remind_time) =>
      if negb (String.eqb task EmptyString)
      then Ok (Some (task, remind_time))
      else parse_reminder_fallback message now_fallback
  | None => parse_reminder_fallback message now_fallback
  end.

End Reminder.

(** ** The job registry and the durable store *)

Module Store.
Import PyStr PyVal Datetime DatabasePg.

(** *** APScheduler, as the program uses it

    The registry is the [MemoryJobStore]: a dictionary from job id to
    job. *)

Inductive trigger : Type :=
| Cron (hour minute : Z) (timezone : string)
| Date (run_date_utc : datetime) (timezone : string).

Inductive job_func : Type :=
| send_daily_workout_plan
| send_message_via_twilio.

Record job : Type := Job {
  func : job_func;
  job_trigger : trigger;
  args : list string;
  name : string;
  misfire_grace_time : option Z
}.

Record scheduler_obj : Type := SchedulerObj {
  running : bool;
  jobs : gmap string job
}.

(** [scheduler.remove_job(job_id)] *)
Definition remove_job (job_id : string) (s : scheduler_obj)
  : result scheduler_obj :=
  match jobs s !! job_id with
  | Some _ => Ok (SchedulerObj (running s) (delete job_id (jobs s)))
  | None => Raise JobLookupError
  end.

(** [scheduler.add_job(..., id=job_id, replace_existing=True)] on a
    running scheduler. *)
Definition add_job (job_id : string) (j : job) (s : scheduler_obj)
  : scheduler_obj :=
  SchedulerObj (running s) (<[job_id := j]> (jobs s)).

(** [scheduler.get_jobs()], each job with its id. *)
Definition get_jobs (s : scheduler_obj) : list (string * job) :=
  map_to_list (jobs s).

(** *** The relational store

    Each table is a map from its unique [phone_number] column to the
    rest of the row.  Statements always go through: connection failures
    are outside the model.  A [user_profiles] row holds the parameters of
    the [INSERT] as they were passed. *)

Record schedule_row : Type := ScheduleRow {
  preferred_time : string;
  timezone : string;
  job_id : option string;
  active : bool
}.

Record auth_user : Type := AuthUser {
  au_name : option string;
  authorized : bool;
  expiry_date : option datetime
}.

(** One row of [auth_logs]. *)
Record auth_log : Type := AuthLog {
  al_phone_number : string;
  al_action : string;
  al_success : bool
}.

Inductive thread : Type :=
| handle_skip_and_generate_plan (sender : string)
| process_and_reply (sender : string) (is_initial_plan : bool)
    (incoming_msg : string).

(** The process state a request or a startup touches. *)
Record world : Type := World {
  user_sessions : gmap string (gmap string value);
  scheduler : option scheduler_obj;
  user_profiles : gmap string (gmap string value);
  daily_workout_schedule : gmap string schedule_row;
  authorized_users : gmap string auth_user;
  threads : list thread;
  admin_users : gset string;       (* the phone numbers of [admin_users] *)
  auth_logs : list auth_log
}.

Definition set_user_sessions (f : gmap string (gmap string value) ->
                                  gmap string (gmap string value))
  (w : world) : world :=
  World (f (user_sessions w)) (scheduler w) (user_profiles w)
    (daily_workout_schedule w) (authorized_users w) (threads w)
    (admin_users w) (auth_logs w).

Definition set_scheduler (s : option scheduler_obj) (w : world) : world :=
  World (user_sessions w) s (user_profiles w)
    (daily_workout_schedule w) (authorized_users w) (threads w)
    (admin_users w) (auth_logs w).

Definition set_user_profiles (f : gmap string (gmap string value) ->
                                  gmap string (gmap string value))
  (w : world) : world :=
  World (user_sessions w) (scheduler w) (f (user_profiles w))
    (daily_workout_schedule w) (authorized_users w) (threads w)
    (admin_users w) (auth_logs w).

Definition set_daily_workout_schedule
  (f : gmap string schedule_row -> gmap string schedule_row)
  (w : world) : world :=
  World (user_sessions w) (scheduler w) (user_profiles w)
    (f (daily_workout_schedule w)) (authorized_users w) (threads w)
    (admin_users w) (auth_logs w).

Definition start_thread (t : thread) (w : world) : world :=
  World (user_sessions w) (scheduler w) (user_profiles w)
    (daily_workout_schedule w) (authorized_users w) (threads w ++ [t])
    (admin_users w) (auth_logs w).

(** [is_user_authorized(phone_number)]: the row exists, is authorized
    and, when it has an expiry date, [datetime.now()] is not past it. *)
Definition is_user_authorized (phone_number : string) (now : datetime)
  (w : world) : bool :=
  match authorized_users w !! phone_number with
  | None => false
  | Some result =>
      if negb (authorized result) then false
      else
        match expiry_date result with
        | Some expiry => negb (ltb expiry now)
        | None => true
        end
  end.

(** [is_admin(phone_number)] *)
Definition is_admin (phone_number : string) (w : world) : bool :=
  bool_decide (phone_number ∈ admin_users w).

(** [log_auth_attempt(phone_number, action, success)]: one more row of
    [auth_logs]. *)
Definition log_auth_attempt (phone_number action : string) (success : bool)
  (w : world) : world :=
  let phone_number :=
    match phone_number with
    | EmptyString => "UNKNOWN_SENDER"
    | _ => phone_number
    end in
  World (user_sessions w) (scheduler w) (user_profiles w)
    (daily_workout_schedule w) (authorized_users w) (threads w)
    (admin_users w) (auth_logs w ++ [AuthLog phone_number action success]).

(** [update_schedule_job_id(phone_number, job_id)]: an [UPDATE] of the
    row of that phone number, if there is one. *)
Definition update_schedule_job_id (phone_number id : string) (w : world)
  : world :=
  set_daily_workout_schedule
    (alter (fun r => ScheduleRow (preferred_time r) (timezone r) (Some id)
                       (active r)) phone_number) w.

(** One row of [get_all_scheduled_users()]: the selected columns. *)
Record scheduled_user : Type := ScheduledUser {
  su_phone_number : string;
  su_preferred_time : string;
  su_job_id : option string;
  su_name : option string
}.

(** [get_all_scheduled_users()]: the join of the schedule with the
    authorized users, active and authorized rows only. *)
Definition get_all_scheduled_users (w : world) : list scheduled_user :=
  omap (fun '(phone, r) =>
          match authorized_users w !! phone with
          | Some au =>
              if active r && authorized au
              then Some (ScheduledUser phone (preferred_time r) (job_id r)
                           (au_name au))
              else None
          | None => None
          end)
       (map_to_list (daily_workout_schedule w)).

(** The columns of [user_profiles] that [save_user_profile] writes. *)
Definition profile_columns : list string :=
  [ "name"; "age"; "gender"; "weight"; "height"; "bmi"; "fitness_goal";
    "medical_conditions"; "injuries"; "allergies"; "diet_preference";
    "activity_level"; "stress_level"; "workout_duration";
    "workout_location"; "workout_time"; "exercises_to_avoid" ].

(** [save_user_profile(phone_number, profile_data)]: insert or update of
    the whole row. *)
Definition save_user_profile (phone_number : string)
  (profile_data : gmap string value) (w : world) : world :=
  let row :=
    foldr (fun c acc => <[c := get profile_data c]> acc)
      ({[ "profile_completed" :=
            get_default profile_data "profile_completed" (VBool false) ]})
      profile_columns in
  set_user_profiles (<[phone_number := row]>) w.

(** [get_user_profile(phone_number)] *)
Definition get_user_profile (phone_number : string) (w : world)
  : option (gmap string value) :=
  user_profiles w !! phone_number.

(** [mark_profile_completed(phone_number)]: an [UPDATE] of one column. *)
Definition mark_profile_completed (phone_number : string) (w : world)
  : world :=
  set_user_profiles
    (alter (<["profile_completed" := VBool true]>) phone_number) w.




Definition allowed_fields : list string :=
  [ "name"; "age"; "gender"; "weight"; "height"; "bmi"; "fitness_goal";
    "medical_conditions"; "injuries"; "allergies";
    "diet_preference"; "activity_level"; "stress_level";
    "workout_duration"; "workout_location"; "workout_time";
    "exercises_to_avoid"; "profile_completed" ].

(** [update_profile_field(phone_number, field_name, field_value)]: the
    result says whether a row was updated. *)
Definition update_profile_field (phone_number field_name : string)
  (field_value : value) (w : world) : bool * world :=
  if negb (existsb (String.eqb field_name) allowed_fields) then (false, w)
  else
    match user_profiles w !! phone_number with
    | Some row =>
        (true,
         set_user_profiles (<[phone_number := <[field_name := field_value]> row]>) w)
    | None => (false, w)
    end.

End Store.

(** ** [app.py]: the daily workout schedule *)

Module Schedule.
Import PyStr PyVal Datetime Store.

(** [f"daily_workout_{phone_number.replace(':', '_')}"] *)
Definition daily_job_id (phone_number : string) : string :=
  "daily_workout_" ++ replace_char ":" "_" phone_number.

(** [hour, minute = map(int, preferred_time.split(':'))] *)
Definition parse_hour_minute (preferred_time : string) : result (Z * Z) :=
  match split ":" preferred_time with
  | [h; m] =>
      match int h, int m with
      | Some hour, Some minute => Ok (hour, minute)
      | _, _ => Raise ValueError
      end
  | _ => Raise ValueError
  end.

Definition daily_job (phone_number : string) (hour minute : Z) : job :=
  {| func := send_daily_workout_plan;
     job_trigger := Cron hour minute "Asia/Kolkata";
     args := [phone_number];
     name := "Daily Workout: " ++ phone_number;
     misfire_grace_time := Some 300 |}.

(** [schedule_user_daily_workout(phone_number, preferred_time)] *)
Definition schedule_user_daily_workout (phone_number preferred_time : string)
  (w : world) : bool * world :=
  match scheduler w with
  | None => (false, w)
  | Some s =>
      if negb (running s) then (false, w)
      else
        match parse_hour_minute preferred_time with
        | Raise _ => (false, w)
        | Ok (hour, minute) =>
            if negb ((0 <=? hour) && (hour <=? 23) &&
                     (0 <=? minute) && (minute <=? 59))%Z
            then (false, w)
            else
              let job_id := daily_job_id phone_number in
              let s := try_except (remove_job job_id s) s in
              let s := add_job job_id (daily_job phone_number hour minute) s in
              let w := set_scheduler (Some s) w in
              let w := update_schedule_job_id phone_number job_id w in
              (true, w)
        end
  end.

(** The loop of [reschedule_all_daily_workouts()], with its two
    counters. *)
Fixpoint reschedule_loop (users : list scheduled_user)
  (success_count failed_count : nat) (w : world) : nat * nat * world :=
  match users with
  | [] => (success_count, failed_count, w)
  | user :: rest =>
      let '(ok, w) :=
        schedule_user_daily_workout (su_phone_number user)
          (su_preferred_time user) w in
      if ok then reschedule_loop rest (S success_count) failed_count w
      else reschedule_loop rest success_count (S failed_count) w
  end.

(** [reschedule_all_daily_workouts()] *)
Definition reschedule_all_daily_workouts (w : world) : world :=
  match get_all_scheduled_users w with
  | [] => w
  | users => (reschedule_loop users 0 0 w).2
  end.

End Schedule.

(** ** [app.py]: the webhook *)

Module Webhook.
Import PyStr PyVal Datetime Store Schedule Reminder DatabasePg.

(** A handler runs on the process state and ends with a value or with an
    uncaught exception; what it changed before raising stays changed. *)
Definition M (A : Type) : Type := world -> result A * world.

#[global] Instance M_ret : MRet M := fun A a w => (Ok a, w).

#[global] Instance M_bind : MBind M := fun A B f m w =>
  match m w with
  | (Ok a, w') => f a w'
  | (Raise e, w') => (Raise e, w')
  end.

Definition raise {A : Type} (e : exn) : M A := fun w => (Raise e, w).
Definition modify (f : world -> world) : M unit := fun w => (Ok tt, f w).
Definition gets {A : Type} (f : world -> A) : M A := fun w => (Ok (f w), w).
Definition lift_result {A : Type} (r : result A) : M A := fun w => (r, w).
Definition lift_state {A : Type} (f : world -> A * world) : M A := fun w =>
  let '(a, w') := f w in (Ok a, w').

(** What a request brings and what the outside answers while it is
    handled. *)
Record turn_input : Type := TurnInput {
  body : string;                 (* the [Body] field of the form *)
  completion : result string;    (* the outcome of [llm.invoke] *)
  now_llm : datetime;            (* [datetime.now(IST)] in the LLM parser *)
  now_fallback : datetime;       (* [datetime.now(IST)] in the regex parser *)
  now_naive : datetime;          (* [datetime.now()] *)
  timestamp : Z;                 (* [int(datetime.now().timestamp())] *)
  now_auth : datetime            (* [datetime.now()] in [is_user_authorized] *)
}.

(** The reply, by kind; the fields named in a re-prompt are kept. *)
Inductive reply : Type :=
| admin_denied                         (* Access Denied: no admin privileges *)
| admin_reply (admin_response : string)
| access_denied                        (* Access Denied: not authorized *)
| greeting
| basic_done
| basic_missing (missing : list string)
| personalize_skipped
| personalize_done
| personalize_missing (missing : list string)
| health_skipped
| health_done
| lifestyle_skipped
| lifestyle_done
| lifestyle_missing (missing : list string)
| generating_plan
| need_critical_fields (missing : list string)
| profile_summary
| workout_missing (missing : list string)
| reminder_set (task : string) (run_time : datetime)
| reminder_failed
| reminder_usage
| need_fields_first (missing : list string)
| profile_saved (scheduled_time : option string)
| what_to_change
| using_profile_as_is
| please_confirm
| intent_dispatch   (* the intent handlers below the confirmation handler *)
| no_reply.         (* no stage matched: the function returns nothing *)

(** The extractors share one shape: the completion is cleaned and
    decoded, the stage's keys default to [None], and any exception gives
    the defaults alone. *)
Definition defaults_of (keys : list string) : gmap string value :=
  list_to_map ((fun k => (k, VNone)) <$> keys).

Definition extract_with (E : env) (keys : list string)
  (completion : result string) : gmap string value :=
  try_except
    (content ← completion;
     match json_loads E (clean_response content) with
     | Some (VDict extracted_data) => Ok (extracted_data ∪ defaults_of keys)
     | Some _ => Raise TypeError
     | None => Raise JSONDecodeError
     end)
    (defaults_of keys).

Definition extract_user_info_from_text (E : env) :=
  extract_with E [ "name"; "age"; "gender"; "weight"; "height";
                   "fitness_goal"; "injury"; "time_restriction" ].

Definition extract_health_info (E : env) :=
  extract_with E [ "medical_conditions"; "injuries"; "allergies" ].

Definition extract_lifestyle_info (E : env) :=
  extract_with E [ "diet_preference"; "activity_level"; "stress_level" ].

Definition extract_workout_prefs (E : env) :=
  extract_with E [ "workout_duration"; "workout_location"; "workout_time";
                   "exercises_to_avoid" ].

(** [get_missing_fields(extracted_data, "basic")], the list of names. *)
Definition get_missing_fields_basic (extracted_data : gmap string value)
  : list string :=
  List.filter (fun k => negb (truthy (get extracted_data k)))
    [ "name"; "age"; "gender" ].

Definition affirmative_words : list string :=
  [ "yes"; "yeah"; "yep"; "correct"; "right"; "ok"; "okay"; "confirm" ].

Definition negative_words : list string :=
  [ "no"; "nope"; "change"; "incorrect"; "wrong" ].

Definition reminder_keywords : list string :=
  [ "remind"; "set reminder"; "alert"; "alarm"; "schedule"; "notification" ].

Definition mem (x : string) (l : list string) : bool :=
  existsb (String.eqb x) l.

Definition any_in (keywords : list string) (s : string) : bool :=
  existsb (fun k => contains k s) keywords.

Definition first_plan_request : string :=
  "Create my first personalized workout plan for today based on my profile.".

(** The default height, [5'8] followed by a double quote. *)
Definition default_height : string :=
  "5'8" ++ String "034"%char EmptyString.

Definition ist_offset : timedelta := 5 * us_per_hour + 30 * us_per_minute.

(** [schedule_reminder(sender, task, run_time)] for a [run_time] in
    [IST]. *)
Definition schedule_reminder (sender task : string) (run_time : datetime)
  (timestamp : Z) (w : world) : bool * world :=
  match scheduler w with
  | None => (false, w)
  | Some s =>
      if negb (running s) then (false, w)
      else
        match add run_time (- ist_offset) with
        | Raise _ => (false, w)
        | Ok run_time_utc =>
            let job_id := "reminder_" ++ sender ++ "_" ++ str_of_int timestamp in
            let reminder_msg := "Reminder: " ++ task in
            let j := {| func := send_message_via_twilio;
                        job_trigger := Date run_time_utc "UTC";
                        args := [sender; reminder_msg];
                        name := "Reminder: " ++ task;
                        misfire_grace_time := None |} in
            (true, set_scheduler (Some (add_job job_id j s)) w)
        end
  end.

Section Handler.
Variable E : env.
Variable sender : string.

(** [session = user_sessions[sender]]: the dictionary itself, so a
    write is a write into [user_sessions]. *)
Definition the_session (w : world) : gmap string value :=
  default ∅ (user_sessions w !! sender).

Definition session_get (k : string) : M value :=
  gets (fun w => get (the_session w) k).

Definition session_item (k : string) : M value := fun w =>
  match the_session w !! k with
  | Some v => (Ok v, w)
  | None => (Raise KeyError, w)
  end.

Definition session_set (k : string) (v : value) : M unit :=
  modify (fun w =>
    set_user_sessions (<[sender := <[k := v]> (the_session w)]>) w).

Definition session_has (k : string) : M bool :=
  gets (fun w => bool_decide (is_Some (the_session w !! k))).

(** [if data.get(k): session[k] = data[k]] *)
Definition merge_field (data : gmap string value) (k : string) : M unit :=
  if truthy (get data k) then session_set k (get data k) else mret tt.

(** [session[k] = session.get(k) or dflt] *)
Definition default_field (k : string) (dflt : string) : M unit :=
  v ← session_get k; session_set k (or_else v (VStr dflt)).

(** [session[k1] and session[k2] and ...] *)
Fixpoint all_items (ks : list string) : M bool :=
  match ks with
  | [] => mret true
  | k :: rest =>
      v ← session_item k;
      if truthy (v : value) then all_items rest else mret false
  end.

(** [session.get(k1) and session.get(k2) and ...] *)
Definition all_get (ks : list string) : M bool :=
  gets (fun w => forallb (fun k => truthy (get (the_session w) k)) ks).

(** The labels of the entries whose [session[k]] is falsy. *)
Fixpoint missing_items (ks : list (string * string)) : M (list string) :=
  match ks with
  | [] => mret []
  | (k, label) :: rest =>
      v ← session_item k;
      more ← missing_items rest;
      mret (if truthy (v : value) then more else label :: (more : list string))
  end.

(** The labels of the entries whose [session.get(k)] is falsy. *)
Definition missing_get (ks : list (string * string)) : M (list string) :=
  gets (fun w =>
    snd <$> List.filter (fun kl => negb (truthy (get (the_session w) kl.1))) ks).

Definition critical_fields : list (string * string) :=
  [ ("weight", "weight"); ("height", "height");
    ("fitness_goal", "fitness goal") ].

(** [session["messages"].append(HumanMessage(content=content))]; a
    message is kept as its content. *)
Definition append_message (content : string) : M unit :=
  v ← session_item "messages";
  match (v : value) with
  | VList l => session_set "messages" (VList (l ++ [VStr content]))
  | _ => raise AttributeError
  end.

(** [update_session_from_extracted_data(session, extracted_data, step)] *)
Definition update_session_from_extracted_data
  (extracted_data : gmap string value) (step : string) : M bool :=
  if String.eqb step "basic" then
    merge_field extracted_data "name";;
    merge_field extracted_data "age";;
    merge_field extracted_data "gender";;
    all_items [ "name"; "age"; "gender" ]
  else if String.eqb step "restrictions" then
    (if truthy (get extracted_data "time_restriction")
     then session_set "user_restrictions" (get extracted_data "time_restriction")
     else if truthy (get extracted_data "injury")
     then session_set "user_restrictions" (get extracted_data "injury")
     else session_set "user_restrictions"
            (or_else (get extracted_data "injury") (VStr "None")));;
    mret true
  else if String.eqb step "personalize" then
    merge_field extracted_data "weight";;
    merge_field extracted_data "height";;
    merge_field extracted_data "fitness_goal";;
    merge_field extracted_data "injury";;
    all_items [ "weight"; "height"; "fitness_goal" ]
  else mret false.

Definition is_skip (incoming_msg : string) : bool :=
  String.eqb (strip (lower incoming_msg)) "skip".

(** Step 1: basic info. *)
Definition basic_stage (inp : turn_input) : M reply :=
  let extracted := extract_user_info_from_text E (completion inp) in
  success ← update_session_from_extracted_data extracted "basic";
  if (success : bool) then
    session_set "onboarding_step" (VStr "personalize");;
    mret basic_done
  else mret (basic_missing (get_missing_fields_basic extracted)).

(** Step 2: body metrics. *)
Definition personalize_stage (incoming_msg : string) (inp : turn_input)
  : M reply :=
  if is_skip incoming_msg then
    default_field "weight" "70kg";;
    default_field "height" default_height;;
    default_field "fitness_goal" "overall fitness";;
    session_set "onboarding_step" (VStr "health");;
    mret personalize_skipped
  else
    let extracted := extract_user_info_from_text E (completion inp) in
    merge_field extracted "weight";;
    merge_field extracted "height";;
    merge_field extracted "fitness_goal";;
    filled ← all_items [ "weight"; "height"; "fitness_goal" ];
    if (filled : bool) then
      weight ← session_item "weight";
      height ← session_item "height";
      session_set "bmi" (calculate_bmi E weight height);;
      session_set "onboarding_step" (VStr "health");;
      mret personalize_done
    else
      missing ← missing_items critical_fields;
      mret (personalize_missing missing).

(** Step 3: health info. *)
Definition health_stage (incoming_msg : string) (inp : turn_input)
  : M reply :=
  if is_skip incoming_msg then
    session_set "medical_conditions" (VStr "None");;
    session_set "injuries" (VStr "None");;
    session_set "allergies" (VStr "None");;
    session_set "onboarding_step" (VStr "lifestyle");;
    mret health_skipped
  else
    let health_data := extract_health_info E (completion inp) in
    session_set "medical_conditions"
      (or_else (get health_data "medical_conditions") (VStr "None"));;
    session_set "injuries" (or_else (get health_data "injuries") (VStr "None"));;
    session_set "allergies" (or_else (get health_data "allergies") (VStr "None"));;
    session_set "onboarding_step" (VStr "lifestyle");;
    mret health_done.

(** Step 4: lifestyle. *)
Definition lifestyle_stage (incoming_msg : string) (inp : turn_input)
  : M reply :=
  if is_skip incoming_msg then
    default_field "diet_preference" "Mixed";;
    default_field "activity_level" "Moderately Active";;
    default_field "stress_level" "Moderate";;
    session_set "onboarding_step" (VStr "workout_prefs");;
    mret lifestyle_skipped
  else
    let lifestyle_data := extract_lifestyle_info E (completion inp) in
    merge_field lifestyle_data "diet_preference";;
    merge_field lifestyle_data "activity_level";;
    merge_field lifestyle_data "stress_level";;
    filled ← all_get [ "diet_preference"; "activity_level"; "stress_level" ];
    if (filled : bool) then
      session_set "onboarding_step" (VStr "workout_prefs");;
      mret lifestyle_done
    else
      missing ← missing_items
        [ ("diet_preference", "diet preference");
          ("activity_level", "activity level");
          ("stress_level", "stress level") ];
      mret (lifestyle_missing missing).

(** The [profile_data] dictionary of step 5, read from the session in
    the order of the source. *)
Definition build_profile_data : M (gmap string value) :=
  name ← session_item "name";
  age ← session_item "age";
  gender ← session_item "gender";
  weight ← session_item "weight";
  height ← session_item "height";
  bmi ← session_get "bmi";
  fitness_goal ← session_item "fitness_goal";
  medical_conditions ← session_get "medical_conditions";
  injuries ← session_get "injuries";
  allergies ← session_get "allergies";
  diet_preference ← session_item "diet_preference";
  activity_level ← session_item "activity_level";
  stress_level ← session_item "stress_level";
  workout_duration ← session_item "workout_duration";
  workout_location ← session_item "workout_location";
  workout_time ← session_item "workout_time";
  exercises_to_avoid ← session_get "exercises_to_avoid";
  mret (list_to_map
    [ ("name", name); ("age", age); ("gender", gender);
      ("weight", weight); ("height", height); ("bmi", bmi);
      ("fitness_goal", fitness_goal);
      ("medical_conditions", medical_conditions);
      ("injuries", injuries); ("allergies", allergies);
      ("diet_preference", diet_preference);
      ("activity_level", activity_level);
      ("stress_level", stress_level);
      ("workout_duration", workout_duration);
      ("workout_location", workout_location);
      ("workout_time", workout_time);
      ("exercises_to_avoid", exercises_to_avoid);
      ("profile_completed", VInt 1) ] : gmap string value).

(** Step 5: workout preferences. *)
Definition workout_prefs_stage (incoming_msg : string) (inp : turn_input)
  : M reply :=
  if is_skip incoming_msg then
    default_field "workout_duration" "30 minutes";;
    default_field "workout_location" "Home";;
    default_field "workout_time" "Flexible";;
    default_field "exercises_to_avoid" "None";;
    modify (start_thread (handle_skip_and_generate_plan sender));;
    mret generating_plan
  else
    let workout_data := extract_workout_prefs E (completion inp) in
    merge_field workout_data "workout_duration";;
    merge_field workout_data "workout_location";;
    merge_field workout_data "workout_time";;
    session_set "exercises_to_avoid"
      (or_else (get workout_data "exercises_to_avoid") (VStr "None"));;
    workout_time ← session_get "workout_time";
    (if truthy (workout_time : value) then mret tt
     else session_set "workout_time" (VStr "Flexible"));;
    filled ← all_get [ "workout_duration"; "workout_location" ];
    if (filled : bool) then
      missing_critical ← missing_get critical_fields;
      match (missing_critical : list string) with
      | _ :: _ =>
          session_set "onboarding_step" (VStr "personalize");;
          mret (need_critical_fields missing_critical)
      | [] =>
          profile_data ← build_profile_data;
          modify (save_user_profile sender profile_data);;
          session_set "onboarding_step" (VStr "done");;
          session_set "profile_completed" (VBool true);;
          session_set "profile_confirmed" (VBool false);;
          mret profile_summary
      end
    else
      missing ← missing_items
        [ ("workout_duration", "duration");
          ("workout_location", "location") ];
      mret (workout_missing missing).

(** The reminder branch of the last step. *)
Definition reminder_branch (incoming_msg : string) (inp : turn_input)
  : M reply :=
  parsed ← lift_result
    (parse_reminder_message E incoming_msg (completion inp)
       (now_llm inp) (now_fallback inp));
  match (parsed : option (string * datetime)) with
  | Some (task, run_time) =>
      success ← lift_state
        (schedule_reminder sender task run_time (timestamp inp));
      if (success : bool) then mret (reminder_set task run_time)
      else mret reminder_failed
  | None => mret reminder_usage
  end.

(** The scheduling part of an affirmative answer: the stored workout
    time is normalized and the daily job registered. *)
Definition schedule_after_confirmation : M (option string) := fun w =>
  (* [workout_time] is a TEXT column: what is read from it is a string
     or [None] *)
  match get_user_profile sender w with
  | Some profile =>
      match get profile "workout_time" with
      | VStr (String c t) =>
          let normalized_time :=
            normalize_workout_time (Some (String c t)) in
          let '(ok, w') :=
            schedule_user_daily_workout sender normalized_time w in
          (Ok (if ok then Some normalized_time else None), w')
      | _ => (Ok None, w)
      end
  | None => (Ok None, w)
  end.

(** The confirmation handler; [None] when the session is not waiting
    for a confirmation. *)
Definition confirmation_handler (incoming_msg msg_lower : string)
  : M (option reply) :=
  confirmed ← session_get "profile_confirmed";
  completed ← session_get "profile_completed";
  if negb (truthy confirmed) && truthy completed then
    has ← session_has "confirmation_attempts";
    (if (has : bool) then mret tt
     else session_set "confirmation_attempts" (VInt 0));;
    if mem msg_lower affirmative_words then
      session_set "profile_confirmed" (VBool true);;
      session_set "confirmation_attempts" (VInt 0);;
      missing ← missing_get critical_fields;
      match (missing : list string) with
      | _ :: _ =>
          session_set "onboarding_step" (VStr "personalize");;
          session_set "profile_confirmed" (VBool false);;
          mret (Some (need_fields_first missing))
      | [] =>
          modify (mark_profile_completed sender);;
          scheduled_time ← schedule_after_confirmation;
          _ ← session_item "name";
          append_message first_plan_request;;
          modify (start_thread (process_and_reply sender true EmptyString));;
          mret (Some (profile_saved scheduled_time))
      end
    else if mem msg_lower negative_words then
      session_set "confirmation_attempts" (VInt 0);;
      session_set "profile_confirmed" (VBool true);;
      mret (Some what_to_change)
    else
      attempts ← session_item "confirmation_attempts";
      attempts ←
        match (attempts : value) with
        | VInt n => mret (n + 1)
        | VBool b => mret ((if b then 1 else 0) + 1)
        | _ => raise TypeError
        end;
      session_set "confirmation_attempts" (VInt attempts);;
      if (3 <=? attempts)%Z then
        session_set "profile_confirmed" (VBool true);;
        session_set "confirmation_attempts" (VInt 0);;
        modify (mark_profile_completed sender);;
        append_message first_plan_request;;
        modify (start_thread (process_and_reply sender true incoming_msg));;
        mret (Some using_profile_as_is)
      else mret (Some please_confirm)
  else mret None.

(** The last step, [done], down to the confirmation handler. *)
Definition done_stage (incoming_msg : string) (inp : turn_input)
  : M reply :=
  let msg_lower := strip (lower incoming_msg) in
  if any_in reminder_keywords msg_lower then
    reminder_branch incoming_msg inp
  else
    handled ← confirmation_handler incoming_msg msg_lower;
    match (handled : option reply) with
    | Some r => mret r
    | None => mret intent_dispatch
    end.

Definition restored_session (profile : gmap string value)
  (now : datetime) : gmap string value :=
  list_to_map
    [ ("messages", VList []);
      ("onboarding_step", VStr "done");
      ("profile_completed", VBool true);
      ("profile_confirmed", VBool true);
      ("name", get profile "name");
      ("age", get profile "age");
      ("gender", get profile "gender");
      ("weight", get profile "weight");
      ("height", get profile "height");
      ("fitness_goal", get profile "fitness_goal");
      ("medical_conditions", get profile "medical_conditions");
      ("injuries", get profile "injuries");
      ("allergies", get profile "allergies");
      ("diet_preference", get profile "diet_preference");
      ("activity_level", get profile "activity_level");
      ("stress_level", get profile "stress_level");
      ("workout_duration", get profile "workout_duration");
      ("workout_location", get profile "workout_location");
      ("workout_time", get profile "workout_time");
      ("exercises_to_avoid", get profile "exercises_to_avoid");
      ("bmi", get profile "bmi");
      ("just_viewed_profile", VBool false);
      ("reminders", VList []);
      ("last_goal_check", VDatetime now) ].

Definition new_session (now : datetime) : gmap string value :=
  list_to_map
    [ ("messages", VList []);
      ("onboarding_step", VStr "basic");
      ("name", VNone); ("age", VNone); ("gender", VNone);
      ("weight", VNone); ("height", VNone); ("fitness_goal", VNone);
      ("injury", VNone);
      ("reminders", VList []);
      ("last_goal_check", VDatetime now);
      ("user_restrictions", VNone);
      ("just_viewed_profile", VBool false);
      ("medical_conditions", VNone); ("injuries", VNone);
      ("allergies", VNone);
      ("diet_preference", VNone); ("activity_level", VNone);
      ("stress_level", VNone);
      ("workout_duration", VNone); ("workout_location", VNone);
      ("workout_time", VNone); ("exercises_to_avoid", VNone);
      ("bmi", VNone);
      ("profile_completed", VBool false);
      ("profile_confirmed", VBool false) ].

(** The stages, tried in the order of the source. *)
Definition dispatch_stage (incoming_msg : string) (inp : turn_input)
  : M reply :=
  step ← session_item "onboarding_step";
  if eq_str step "basic" then basic_stage inp
  else if eq_str step "personalize" then personalize_stage incoming_msg inp
  else if eq_str step "health" then health_stage incoming_msg inp
  else if eq_str step "lifestyle" then lifestyle_stage incoming_msg inp
  else if eq_str step "workout_prefs" then workout_prefs_stage incoming_msg inp
  else if eq_str step "done" then done_stage incoming_msg inp
  else mret no_reply.

(** [whatsapp_webhook()] from the look-up of the session on (line 2807):
    the conversation, which [whatsapp_route] below enters once the
    authentication check has let the request through. *)
Definition whatsapp_webhook (inp : turn_input) : M reply :=
  let incoming_msg := strip (body inp) in
  known ← gets (fun w => bool_decide (is_Some (user_sessions w !! sender)));
  if (known : bool) then dispatch_stage incoming_msg inp
  else
    profile ← gets (get_user_profile sender);
    match (profile : option (gmap string value)) with
    | Some p =>
        if negb (bool_decide (p = ∅)) && truthy (get p "profile_completed")
        then
          modify (set_user_sessions
                    (<[sender := restored_session p (now_naive inp)]>));;
          dispatch_stage incoming_msg inp
        else
          modify (set_user_sessions
                    (<[sender := new_session (now_naive inp)]>));;
          mret greeting
    | None =>
        modify (set_user_sessions
                  (<[sender := new_session (now_naive inp)]>));;
        mret greeting
    end.

(** The first statements of the background worker
    [handle_skip_and_generate_plan(sender, session)] (lines 2129-2131),
    before it generates and sends the general plan.  Its [session] is the
    dictionary the webhook took from [user_sessions]. *)
Definition mark_minimally_completed : M unit :=
  session_set "onboarding_step" (VStr "done");;
  session_set "profile_completed" (VBool true);;
  session_set "profile_confirmed" (VBool true).

(** The admin console, [handle_admin_command(sender, incoming_msg)], is
    left open: it returns a response or nothing and may change the state
    or raise. *)
Variable handle_admin_command : string -> string -> M (option string).

(** [if admin_response:] *)
Definition nonempty (admin_response : option string) : option string :=
  match admin_response with
  | Some (String c t) => Some (String c t)
  | _ => None
  end.

(** The authentication check (lines 2767-2801); [Some] is the reply of a
    request that it answers itself. *)
Definition authentication_check (incoming_msg : string) (inp : turn_input)
  : M (option reply) :=
  intercepted ←
    (if startswith "ADMIN" (upper incoming_msg) then
       admin ← gets (is_admin sender);
       if negb (admin : bool) then
         modify (log_auth_attempt sender "unauthorized_admin_attempt" false);;
         mret (Some admin_denied)
       else
         admin_response ← handle_admin_command sender incoming_msg;
         match nonempty admin_response with
         | Some response =>
             modify (log_auth_attempt sender "admin_command" true);;
             mret (Some (admin_reply response))
         | None => mret None
         end
     else mret None);
  match (intercepted : option reply) with
  | Some r => mret (Some r)
  | None =>
      authorized ← gets (is_user_authorized sender (now_auth inp));
      if negb (authorized : bool) then
        modify (log_auth_attempt sender "unauthorized_access" false);;
        mret (Some access_denied)
      else
        modify (log_auth_attempt sender "authorized_access" true);;
        mret None
  end.

(** [whatsapp_webhook()], the route [/whatsapp], from its first line. *)
Definition whatsapp_route (inp : turn_input) : M reply :=
  let incoming_msg := strip (body inp) in
  answered ← authentication_check incoming_msg inp;
  match (answered : option reply) with
  | Some r => mret r
  | None => whatsapp_webhook inp
  end.

End Handler.
End Webhook.

(** * Properties *)

Import PyStr PyVal Datetime Store Schedule Reminder DatabasePg Webhook.

(** ** Workout times *)

Definition hours : list Z := Z.of_nat <$> seq 0 24.
Definition minutes : list Z := Z.of_nat <$> seq 0 60.

Lemma in_hours (h : Z) : 0 <= h <= 23 -> In h hours.
Proof.
  intros Hh. unfold hours. apply in_map_iff. exists (Z.to_nat h). split.
  - lia.
  - apply in_seq. lia.
Qed.

Lemma in_minutes (m : Z) : 0 <= m <= 59 -> In m minutes.
Proof.
  intros Hm. unfold minutes. apply in_map_iff. exists (Z.to_nat m). split.
  - lia.
  - apply in_seq. lia.
Qed.

Lemma in_range_spec (h m : Z) :
  ((0 <=? h) && (h <=? 23) && (0 <=? m) && (m <=? 59))%Z = true <->
  (0 <= h <= 23 /\ 0 <= m <= 59).
Proof. rewrite !andb_true_iff, !Z.leb_le. lia. Qed.

(** A property of a formatted time that holds on the whole clock face. *)
Lemma clock_face (P : string -> bool) :
  forallb (fun h => forallb (fun m => P (fmt02 h ++ ":" ++ fmt02 m)) minutes)
    hours = true ->
  forall h m, 0 <= h <= 23 -> 0 <= m <= 59 -> P (fmt02 h ++ ":" ++ fmt02 m) = true.
Proof.
  intros Hall h m Hh Hm.
  rewrite forallb_forall in Hall. specialize (Hall h (in_hours h Hh)).
  rewrite forallb_forall in Hall. exact (Hall m (in_minutes m Hm)).
Qed.

(** Reading a schedule time back with [parse_hour_minute]. *)
Definition parses_in_range (s : string) : bool :=
  match parse_hour_minute s with
  | Ok (h, m) => ((0 <=? h) && (h <=? 23) && (0 <=? m) && (m <=? 59))%Z
  | Raise _ => false
  end.

Definition schedule_time_ok (s : string) : bool := is_hhmm s && parses_in_range s.

Lemma fmt_schedule_time_ok (h m : Z) :
  0 <= h <= 23 -> 0 <= m <= 59 ->
  schedule_time_ok (fmt02 h ++ ":" ++ fmt02 m) = true.
Proof. apply clock_face. vm_compute. reflexivity. Qed.

Lemma clock_time_ok (s t : string) :
  clock_time s = Some t -> schedule_time_ok t = true.
Proof.
  unfold clock_time. destruct (Re.search false time_pattern s) as [m|]; [|discriminate].
  cbv zeta.
  destruct (_ && _ && _ && _)%bool eqn:Hrange; [|discriminate].
  apply in_range_spec in Hrange as [Hh Hm].
  intros [= <-]. apply fmt_schedule_time_ok; assumption.
Qed.

Lemma first_preset_ok (s : string) : schedule_time_ok (first_preset s) = true.
Proof.
  unfold first_preset.
  destruct (List.find _ preset_times) as [kv|] eqn:Hfind; [|reflexivity].
  apply find_some in Hfind as [Hin _].
  repeat (destruct Hin as [<- | Hin]; [reflexivity|]). destruct Hin.
Qed.

Lemma normalize_schedule_time_ok (time_str : option string) :
  schedule_time_ok (normalize_workout_time time_str) = true.
Proof.
  destruct time_str as [[|c raw]|]; [reflexivity| |reflexivity].
  unfold normalize_workout_time. cbv zeta.
  destruct (clock_time _) as [t|] eqn:Hclock.
  - eapply clock_time_ok; eassumption.
  - apply first_preset_ok.
Qed.

Lemma first_preset_default (s : string) :
  forallb (fun kv => negb (contains (fst kv) s)) preset_times = true ->
  first_preset s = "07:00".
Proof.
  intros Hnone. unfold first_preset.
  destruct (List.find _ preset_times) as [kv|] eqn:Hfind; [|reflexivity].
  apply find_some in Hfind as [Hin Hkv].
  rewrite forallb_forall in Hnone. specialize (Hnone kv Hin).
  rewrite Hkv in Hnone. discriminate.
Qed.

Lemma unrecognized_default (time_str : option string) :
  unrecognized time_str = true -> normalize_workout_time time_str = "07:00".
Proof.
  destruct time_str as [[|c raw]|]; [reflexivity| |reflexivity].
  unfold unrecognized, normalize_workout_time. cbv zeta.
  destruct (clock_time _) as [t|]; [discriminate|].
  intros Hnone. apply first_preset_default. exact Hnone.
Qed.

(** ** Registration of the daily job *)

Lemma schedule_registers (phone_number preferred_time : string) (w : world)
  (s : scheduler_obj) (h m : Z) :
  scheduler w = Some s -> running s = true ->
  parse_hour_minute preferred_time = Ok (h, m) ->
  0 <= h <= 23 -> 0 <= m <= 59 ->
  schedule_user_daily_workout phone_number preferred_time w =
    (true,
     update_schedule_job_id phone_number (daily_job_id phone_number)
       (set_scheduler
          (Some (SchedulerObj true
                   (<[daily_job_id phone_number := daily_job phone_number h m]>
                      (jobs s)))) w)).
Proof.
  intros Hs Hrun Hparse Hh Hm. unfold schedule_user_daily_workout.
  rewrite Hs, Hrun, Hparse. cbn [negb].
  rewrite (proj2 (in_range_spec h m) (conj Hh Hm)).
  cbn [negb]. cbv zeta. do 4 f_equal.
  unfold remove_job, add_job.
  destruct (jobs s !! daily_job_id phone_number) eqn:Hj; cbn [try_except running jobs].
  - rewrite Hrun. f_equal. apply insert_delete_eq.
  - rewrite Hrun. reflexivity.
Qed.

(** A successful call is a call on a running scheduler with a time that
    parses in range. *)
Lemma schedule_success_inv (phone_number preferred_time : string) (w w' : world) :
  schedule_user_daily_workout phone_number preferred_time w = (true, w') ->
  exists s h m,
    scheduler w = Some s /\ running s = true /\
    parse_hour_minute preferred_time = Ok (h, m) /\
    0 <= h <= 23 /\ 0 <= m <= 59.
Proof.
  unfold schedule_user_daily_workout.
  destruct (scheduler w) as [s|]; [|discriminate].
  destruct (running s) eqn:Hrun; [|discriminate]. cbn [negb].
  destruct (parse_hour_minute preferred_time) as [[h m]|]; [|discriminate].
  destruct (_ && _ && _ && _)%bool eqn:Hrange; [|discriminate].
  apply in_range_spec in Hrange as [Hh Hm].
  intros _. exists s, h, m. repeat split; try reflexivity; try assumption; lia.
Qed.

Lemma schedule_failure_same (phone_number preferred_time : string) (w w' : world) :
  schedule_user_daily_workout phone_number preferred_time w = (false, w') ->
  w' = w.
Proof.
  unfold schedule_user_daily_workout.
  destruct (scheduler w) as [s|]; [|congruence].
  destruct (running s); [|cbn; congruence]. cbn [negb].
  destruct (parse_hour_minute preferred_time) as [[h m]|]; [|congruence].
  destruct (negb _); [congruence|discriminate].
Qed.

(** The entries of a registry under one id. *)
Definition jobs_with_id (id : string) (s : scheduler_obj) : list (string * job) :=
  List.filter (fun e => String.eqb (fst e) id) (get_jobs s).

Lemma jobs_with_id_one (id : string) (s : scheduler_obj) (j : job) :
  jobs s !! id = Some j -> jobs_with_id id s = [(id, j)].
Proof.
  intros Hj. unfold jobs_with_id, get_jobs.
  assert (Hnd : NoDup (map_to_list (jobs s)).*1) by apply NoDup_fst_map_to_list.
  assert (Hin : (id, j) ∈ map_to_list (jobs s)) by (apply elem_of_map_to_list; exact Hj).
  induction (map_to_list (jobs s)) as [|[k v] l IH]; [inversion Hin|].
  cbn [List.filter fst]. cbn [fmap list_fmap fst] in Hnd.
  apply NoDup_cons in Hnd as [Hk Hnd].
  apply elem_of_cons in Hin as [[= <- <-]|Hin].
  - rewrite String.eqb_refl. f_equal.
    clear IH. induction l as [|[k' v'] l IHl]; [reflexivity|].
    cbn [List.filter fst]. cbn [fmap list_fmap fst] in Hk, Hnd.
    apply not_elem_of_cons in Hk as [Hne Hk].
    apply NoDup_cons in Hnd as [_ Hnd].
    destruct (String.eqb_spec k' id) as [->|_]; [congruence|]. apply IHl; assumption.
  - destruct (String.eqb_spec k id) as [->|_].
    + exfalso. apply Hk. apply list_elem_of_fmap. exists (id, j). split; [reflexivity|assumption].
    + apply IH; assumption.
Qed.

Lemma scheduler_after_registration (phone_number id : string) (s : option scheduler_obj)
  (w : world) :
  scheduler (update_schedule_job_id phone_number id (set_scheduler s w)) = s.
Proof. reflexivity. Qed.

(** C10: [normalize_workout_time] always returns a schedule time [HH:MM]
    with [HH] in 00..23 and [MM] in 00..59, whatever its input: [None],
    ["Flexible"] and every unrecognized input give the default ["07:00"], a
    named period gives its preset, and the result is always accepted by
    [schedule_user_daily_workout], which registers the daily job at that
    hour and minute (07:00 for a user who gave no specific time). *)
Theorem normalize_workout_time_well_formed (time_str : option string) :
  is_hhmm (normalize_workout_time time_str) = true
  /\ (unrecognized time_str = true -> normalize_workout_time time_str = "07:00")
  /\ normalize_workout_time None = "07:00"
  /\ normalize_workout_time (Some "Flexible") = "07:00"
  /\ normalize_workout_time (Some "evening") = "18:00"
  /\ parse_hour_minute "07:00" = Ok (7, 0)
  /\ (forall (phone_number : string) (w : world) (s : scheduler_obj),
        scheduler w = Some s -> running s = true ->
        exists (h m : Z) (w' : world) (s' : scheduler_obj),
          parse_hour_minute (normalize_workout_time time_str) = Ok (h, m)
          /\ 0 <= h <= 23 /\ 0 <= m <= 59
          /\ schedule_user_daily_workout phone_number
               (normalize_workout_time time_str) w = (true, w')
          /\ scheduler w' = Some s'
          /\ jobs s' !! daily_job_id phone_number =
               Some (daily_job phone_number h m)).
Proof.
  pose proof (normalize_schedule_time_ok time_str) as Hok.
  unfold schedule_time_ok in Hok. apply andb_true_iff in Hok as [Hhhmm Hparse].
  split; [exact Hhhmm|].
  split; [apply unrecognized_default|].
  do 4 (split; [reflexivity|]).
  intros phone_number w s Hs Hrun.
  unfold parses_in_range in Hparse.
  destruct (parse_hour_minute (normalize_workout_time time_str)) as [[h m]|] eqn:Hp;
    [|discriminate].
  apply in_range_spec in Hparse as [Hh Hm].
  exists h, m. eexists. eexists.
  split; [reflexivity|]. split; [exact Hh|]. split; [exact Hm|].
  split; [apply (schedule_registers _ _ _ s h m); assumption|].
  split; [apply scheduler_after_registration|].
  cbn [jobs]. apply lookup_insert_eq.
Qed.

Lemma normalize_workout_time_well_formed_witness :
  unrecognized (Some "whenever I can") = true
  /\ normalize_workout_time (Some "whenever I can") = "07:00".
Proof.
  split; [reflexivity|].
  apply (proj1 (proj2 (normalize_workout_time_well_formed (Some "whenever I can")))).
  reflexivity.
Defined.

(** C1: the id of the daily-plan job is [daily_job_id phone_number], which
    is computed from the phone number and nothing else; after two
    registrations for one phone number, with any two times, the registry
    holds exactly one job under that id, its trigger is the hour and minute
    of the second registration, and no other entry of the registry has
    changed. *)
Theorem daily_job_registered_once (phone_number t1 t2 : string)
  (w w1 w2 : world) :
  schedule_user_daily_workout phone_number t1 w = (true, w1) ->
  schedule_user_daily_workout phone_number t2 w1 = (true, w2) ->
  exists (s s2 : scheduler_obj) (h2 m2 : Z),
    daily_job_id phone_number = "daily_workout_" ++ replace_char ":" "_" phone_number
    /\ scheduler w = Some s /\ scheduler w2 = Some s2
    /\ parse_hour_minute t2 = Ok (h2, m2)
    /\ jobs_with_id (daily_job_id phone_number) s2 =
         [(daily_job_id phone_number, daily_job phone_number h2 m2)]
    /\ job_trigger (daily_job phone_number h2 m2) = Cron h2 m2 "Asia/Kolkata"
    /\ (forall id, id <> daily_job_id phone_number ->
          jobs s2 !! id = jobs s !! id).
Proof.
  intros H1 H2.
  destruct (schedule_success_inv _ _ _ _ H1) as (s & h1 & m1 & Hs & Hrun & Hp1 & Hh1 & Hm1).
  rewrite (schedule_registers _ _ _ s h1 m1 Hs Hrun Hp1 Hh1 Hm1) in H1.
  injection H1 as <-.
  destruct (schedule_success_inv _ _ _ _ H2) as (s1 & h2 & m2 & Hs1 & Hrun1 & Hp2 & Hh2 & Hm2).
  rewrite (schedule_registers _ _ _ s1 h2 m2 Hs1 Hrun1 Hp2 Hh2 Hm2) in H2.
  injection H2 as <-.
  rewrite scheduler_after_registration in Hs1. injection Hs1 as <-.
  eexists s, _, h2, m2.
  split; [reflexivity|]. split; [exact Hs|].
  split; [apply scheduler_after_registration|].
  split; [exact Hp2|].
  split; [apply jobs_with_id_one; cbn [jobs]; apply lookup_insert_eq|].
  split; [reflexivity|].
  intros id Hid. cbn [jobs]. rewrite !lookup_insert_ne by congruence. reflexivity.
Qed.

Definition example_phone : string := "whatsapp:+911234567890".

Definition example_world : world :=
  {| user_sessions := ∅;
     scheduler := Some (SchedulerObj true ∅);
     user_profiles := ∅;
     daily_workout_schedule :=
       {[ example_phone := ScheduleRow "06:30" "America/New_York" None true ]};
     authorized_users := {[ example_phone := AuthUser (Some "Asha") true None ]};
     threads := [];
     admin_users := ∅;
     auth_logs := [] |}.

Lemma daily_job_registered_once_witness :
  exists (s s2 : scheduler_obj) (h2 m2 : Z),
    daily_job_id example_phone = "daily_workout_" ++ replace_char ":" "_" example_phone
    /\ scheduler example_world = Some s
    /\ scheduler (schedule_user_daily_workout example_phone "18:00"
                    (schedule_user_daily_workout example_phone "07:00"
                       example_world).2).2 = Some s2
    /\ parse_hour_minute "18:00" = Ok (h2, m2)
    /\ jobs_with_id (daily_job_id example_phone) s2 =
         [(daily_job_id example_phone, daily_job example_phone h2 m2)]
    /\ job_trigger (daily_job example_phone h2 m2) = Cron h2 m2 "Asia/Kolkata"
    /\ (forall id, id <> daily_job_id example_phone ->
          jobs s2 !! id = jobs s !! id).
Proof.
  apply (daily_job_registered_once example_phone "07:00" "18:00" example_world
           (schedule_user_daily_workout example_phone "07:00" example_world).2).
  - vm_compute. reflexivity.
  - vm_compute. reflexivity.
Defined.

(** ** The timezone of the daily trigger *)

Definition trigger_timezone (t : trigger) : string :=
  match t with
  | Cron _ _ tz => tz
  | Date _ tz => tz
  end.

(** The daily job of [phone_number] is registered in the timezone stored in
    that user's schedule row. *)
Definition registered_in_stored_timezone (phone_number : string) (w : world)
  : Prop :=
  exists s j r,
    scheduler w = Some s
    /\ jobs s !! daily_job_id phone_number = Some j
    /\ daily_workout_schedule w !! phone_number = Some r
    /\ trigger_timezone (job_trigger j) = timezone r.

(** A preferred time that [schedule_user_daily_workout] accepts. *)
Definition valid_time (t : string) (h m : Z) : Prop :=
  parse_hour_minute t = Ok (h, m) /\ 0 <= h <= 23 /\ 0 <= m <= 59.

Lemma reschedule_loop_jobs (users : list scheduled_user) :
  forall (sc fc : nat) (w : world) (s : scheduler_obj),
    scheduler w = Some s -> running s = true ->
    exists s',
      scheduler (reschedule_loop users sc fc w).2 = Some s'
      /\ running s' = true
      /\ forall id,
           (jobs s' !! id = jobs s !! id
            /\ forall u h m, In u users ->
                 valid_time (su_preferred_time u) h m ->
                 daily_job_id (su_phone_number u) <> id)
           \/ (exists u h m,
                 In u users
                 /\ valid_time (su_preferred_time u) h m
                 /\ daily_job_id (su_phone_number u) = id
                 /\ jobs s' !! id = Some (daily_job (su_phone_number u) h m)).
Proof.
  induction users as [|u rest IH]; intros sc fc w s Hs Hrun.
  - exists s. cbn. split; [exact Hs|]. split; [exact Hrun|].
    intros id. left. split; [reflexivity|]. intros u h m [].
  - cbn [reschedule_loop].
    destruct (schedule_user_daily_workout (su_phone_number u) (su_preferred_time u) w)
      as [ok w1] eqn:Hsched.
    destruct ok.
    + destruct (schedule_success_inv _ _ _ _ Hsched)
        as (s0 & h & m & Hs0 & _ & Hp & Hh & Hm).
      rewrite Hs in Hs0. injection Hs0 as <-.
      rewrite (schedule_registers _ _ _ s h m Hs Hrun Hp Hh Hm) in Hsched.
      injection Hsched as <-.
      match goal with
      | |- context [reschedule_loop rest _ _ ?w1] =>
          destruct (IH (S sc) fc w1 _ (scheduler_after_registration _ _ _ _) eq_refl)
            as (s' & Hs' & Hrun' & Hjobs)
      end.
      exists s'. split; [exact Hs'|]. split; [exact Hrun'|].
      intros id. destruct (Hjobs id) as [[Heq Hnone]|(u' & h' & m' & Hin & Hv & Hid & Hj)].
      * cbn [jobs] in Heq.
        destruct (decide (daily_job_id (su_phone_number u) = id)) as [Hid|Hid].
        -- right. exists u, h, m. split; [left; reflexivity|].
           split; [split; [exact Hp|split; assumption]|]. split; [exact Hid|].
           rewrite Heq, <- Hid. apply lookup_insert_eq.
        -- left. split; [rewrite Heq; apply lookup_insert_ne; exact Hid|].
           intros u' h' m' [<-|Hin] Hv; [exact Hid|]. eapply Hnone; eassumption.
      * right. exists u', h', m'. split; [right; exact Hin|]. repeat split; try assumption; apply Hv.
    + pose proof (schedule_failure_same _ _ _ _ Hsched) as ->.
      destruct (IH sc (S fc) w s Hs Hrun) as (s' & Hs' & Hrun' & Hjobs).
      exists s'. split; [exact Hs'|]. split; [exact Hrun'|].
      intros id. destruct (Hjobs id) as [[Heq Hnone]|(u' & h' & m' & Hin & Hv & Hid & Hj)].
      * left. split; [exact Heq|].
        intros u' h' m' [<-|Hin] Hv; [|eapply Hnone; eassumption].
        destruct Hv as (Hp & Hh & Hm).
        rewrite (schedule_registers _ _ _ s h' m' Hs Hrun Hp Hh Hm) in Hsched.
        discriminate.
      * right. exists u', h', m'. split; [right; exact Hin|]. repeat split; try assumption; apply Hv.
Qed.

(** What [c9_world] shows: a schedule row whose stored timezone is not the
    one of the registered trigger. *)
Lemma daily_trigger_ignores_stored_timezone :
  ~ registered_in_stored_timezone example_phone
      (reschedule_all_daily_workouts example_world).
Proof.
  intros (s & j & r & Hs & Hj & Hr & Htz).
  vm_compute in Hs. injection Hs as <-.
  vm_compute in Hj. injection Hj as <-.
  vm_compute in Hr. injection Hr as <-.
  vm_compute in Htz. discriminate.
Qed.

Lemma valid_time_functional (t : string) (h m h' m' : Z) :
  valid_time t h m -> valid_time t h' m' -> h' = h /\ m' = m.
Proof. intros [Hp _] [Hp' _]. rewrite Hp in Hp'. injection Hp' as <- <-. split; reflexivity. Qed.

Lemma registration_keeps_timezone (phone_number id : string) (s : option scheduler_obj)
  (w : world) :
  timezone <$>
    daily_workout_schedule
      (update_schedule_job_id phone_number id (set_scheduler s w)) !! phone_number
  = timezone <$> daily_workout_schedule w !! phone_number.
Proof.
  cbn. rewrite lookup_alter_eq.
  destruct (daily_workout_schedule w !! phone_number); reflexivity.
Qed.

Lemma registration_trigger (phone_number t : string) (w w' : world) :
  schedule_user_daily_workout phone_number t w = (true, w') ->
  exists s' h m,
    scheduler w' = Some s'
    /\ valid_time t h m
    /\ jobs s' !! daily_job_id phone_number = Some (daily_job phone_number h m)
    /\ timezone <$> daily_workout_schedule w' !! phone_number
       = timezone <$> daily_workout_schedule w !! phone_number.
Proof.
  intros Hsched.
  destruct (schedule_success_inv _ _ _ _ Hsched) as (s & h & m & Hs & Hrun & Hp & Hh & Hm).
  rewrite (schedule_registers _ _ _ s h m Hs Hrun Hp Hh Hm) in Hsched.
  injection Hsched as <-.
  eexists _, h, m. split; [apply scheduler_after_registration|].
  split; [split; [exact Hp|split; assumption]|].
  split; [cbn [jobs]; apply lookup_insert_eq|].
  apply registration_keeps_timezone.
Qed.

(** C9, as the code has it: the daily-plan trigger is a cron trigger at
    the hour and minute of the user's preferred civil time in the fixed
    named timezone ["Asia/Kolkata"]; the timezone column of the schedule
    row is neither read nor changed.  This holds for every registration
    ([schedule_user_daily_workout]), for the registration after a
    confirmation ([schedule_after_confirmation]) and for the recovery at
    startup ([reschedule_all_daily_workouts]), where a user whose job id no
    other active row shares gets the trigger of the user's own time. *)
Theorem daily_trigger_in_fixed_timezone :
  (forall (phone_number t : string) (w w' : world),
     schedule_user_daily_workout phone_number t w = (true, w') ->
     exists s' h m,
       scheduler w' = Some s'
       /\ valid_time t h m
       /\ job_trigger <$> jobs s' !! daily_job_id phone_number
          = Some (Cron h m "Asia/Kolkata")
       /\ timezone <$> daily_workout_schedule w' !! phone_number
          = timezone <$> daily_workout_schedule w !! phone_number)
  /\ (forall (sender t : string) (w w' : world),
        schedule_after_confirmation sender w = (Ok (Some t), w') ->
        exists s' h m,
          scheduler w' = Some s'
          /\ valid_time t h m
          /\ job_trigger <$> jobs s' !! daily_job_id sender
             = Some (Cron h m "Asia/Kolkata"))
  /\ (forall (w : world) (s : scheduler_obj) (u : scheduled_user) (h m : Z),
        scheduler w = Some s -> running s = true ->
        In u (get_all_scheduled_users w) ->
        valid_time (su_preferred_time u) h m ->
        exists s' j,
          scheduler (reschedule_all_daily_workouts w) = Some s'
          /\ jobs s' !! daily_job_id (su_phone_number u) = Some j
          /\ (exists h' m', job_trigger j = Cron h' m' "Asia/Kolkata")
          /\ ((forall u', In u' (get_all_scheduled_users w) ->
                 daily_job_id (su_phone_number u') = daily_job_id (su_phone_number u) ->
                 u' = u) ->
              job_trigger j = Cron h m "Asia/Kolkata")).
Proof.
  split; [|split].
  - intros phone_number t w w' Hsched.
    destruct (registration_trigger _ _ _ _ Hsched) as (s' & h & m & Hs' & Hv & Hj & Htz).
    exists s', h, m. rewrite Hj. repeat split; try assumption; apply Hv.
  - intros sender t w w'. unfold schedule_after_confirmation.
    destruct (get_user_profile sender w) as [profile|]; [|discriminate].
    destruct (get profile "workout_time") as [| | | |[|c wt]| | |]; try discriminate.
    destruct (schedule_user_daily_workout sender _ w) as [ok w1] eqn:Hsched.
    destruct ok; [|discriminate]. intros [= <- <-].
    destruct (registration_trigger _ _ _ _ Hsched) as (s' & h & m & Hs' & Hv & Hj & _).
    exists s', h, m. rewrite Hj. repeat split; try assumption; apply Hv.
  - intros w s u h m Hs Hrun Hin Hv.
    unfold reschedule_all_daily_workouts.
    destruct (get_all_scheduled_users w) as [|u0 users] eqn:Husers; [destruct Hin|].
    destruct (reschedule_loop_jobs (u0 :: users) 0%nat 0%nat w s Hs Hrun)
      as (s' & Hs' & _ & Hjobs).
    destruct (Hjobs (daily_job_id (su_phone_number u)))
      as [[_ Hnone]|(u' & h' & m' & Hin' & Hv' & Hid & Hj)].
    + exfalso. exact (Hnone u h m Hin Hv eq_refl).
    + exists s', (daily_job (su_phone_number u') h' m').
      split; [exact Hs'|]. split; [exact Hj|]. split; [exists h', m'; reflexivity|].
      intros Huniq. rewrite (Huniq u' Hin' Hid) in Hv'.
      destruct (valid_time_functional _ _ _ _ _ Hv Hv') as [-> ->]. reflexivity.
Qed.

Lemma daily_trigger_in_fixed_timezone_witness :
  exists s' h m,
    scheduler (schedule_user_daily_workout example_phone "06:30" example_world).2
      = Some s'
    /\ valid_time "06:30" h m
    /\ job_trigger <$> jobs s' !! daily_job_id example_phone
       = Some (Cron h m "Asia/Kolkata")
    /\ timezone <$>
         daily_workout_schedule
           (schedule_user_daily_workout example_phone "06:30" example_world).2
         !! example_phone
       = timezone <$> daily_workout_schedule example_world !! example_phone.
Proof.
  apply (proj1 daily_trigger_in_fixed_timezone example_phone "06:30" example_world).
  vm_compute. reflexivity.
Defined.

(** ** Civil-time arithmetic *)

Lemma validb_spec (d : datetime) :
  validb d = true <->
  (1 <= ordinal d <= max_ordinal /\ 0 <= hour d <= 23 /\ 0 <= minute d <= 59
   /\ 0 <= second d <= 59 /\ 0 <= microsecond d <= 999999).
Proof. unfold validb. rewrite !andb_true_iff, !Z.leb_le. lia. Qed.

Ltac unfold_units :=
  unfold to_us, of_us, us_per_day, us_per_hour, us_per_minute, us_per_second in *;
  cbn [ordinal hour minute second microsecond] in *; cbv zeta in *;
  change (24 * (60 * (60 * 1000000))) with 86400000000 in *;
  change (60 * (60 * 1000000)) with 3600000000 in *;
  change (60 * 1000000) with 60000000 in *.

Ltac divmod_facts x :=
  pose proof (Z.div_mod x 86400000000 ltac:(lia));
  pose proof (Z.mod_pos_bound x 86400000000 ltac:(lia));
  pose proof (Z.div_mod (x mod 86400000000) 3600000000 ltac:(lia));
  pose proof (Z.mod_pos_bound (x mod 86400000000) 3600000000 ltac:(lia));
  pose proof (Z.div_mod ((x mod 86400000000) mod 3600000000) 60000000 ltac:(lia));
  pose proof (Z.mod_pos_bound ((x mod 86400000000) mod 3600000000) 60000000
                ltac:(lia));
  pose proof (Z.div_mod (((x mod 86400000000) mod 3600000000) mod 60000000)
                1000000 ltac:(lia));
  pose proof (Z.mod_pos_bound
                (((x mod 86400000000) mod 3600000000) mod 60000000) 1000000
                ltac:(lia)).

Lemma to_us_of_us (x : Z) : to_us (of_us x) = x.
Proof. unfold_units. divmod_facts x. lia. Qed.

Lemma of_us_to_us (d : datetime) :
  0 <= hour d <= 23 -> 0 <= minute d <= 59 -> 0 <= second d <= 59 ->
  0 <= microsecond d <= 999999 ->
  of_us (to_us d) = d.
Proof.
  intros Hh Hm Hs Hu. destruct d as [o h m s u]. unfold_units.
  match goal with
  | |- context [?x / 86400000000] => divmod_facts x
  end.
  f_equal; lia.
Qed.

(** [d.replace(hour=h, minute=m, second=0, microsecond=0)] and the same
    time on the following day. *)
Definition at_time (d : datetime) (h m : Z) : datetime :=
  {| ordinal := ordinal d; hour := h; minute := m; second := 0; microsecond := 0 |}.

Definition next_day (d : datetime) : datetime :=
  {| ordinal := ordinal d + 1; hour := hour d; minute := minute d;
     second := second d; microsecond := microsecond d |}.

Lemma add_one_day (d : datetime) :
  0 <= ordinal d < max_ordinal ->
  0 <= hour d <= 23 -> 0 <= minute d <= 59 -> 0 <= second d <= 59 ->
  0 <= microsecond d <= 999999 ->
  add d us_per_day = Ok (next_day d).
Proof.
  intros Ho Hh Hm Hs Hu. unfold add.
  replace (to_us d + us_per_day) with (to_us (next_day d))
    by (destruct d; unfold_units; unfold next_day; cbn; lia).
  rewrite of_us_to_us by assumption.
  cbn [next_day ordinal].
  replace ((1 <=? ordinal d + 1) && (ordinal d + 1 <=? max_ordinal))%Z with true;
    [reflexivity|].
  symmetry. apply andb_true_iff. rewrite !Z.leb_le. lia.
Qed.

(** ** The reminder parsers *)

Definition example_now : datetime :=
  {| ordinal := 739926; hour := 19; minute := 30; second := 15;
     microsecond := 123456 |}.

(** C3: on ["remind me to drink water in 30 minutes"] the regex fallback
    returns the fire time [now] plus exactly 30 minutes, and the task
    ["me to drink water"]: the time phrase is stripped, but of the leading
    imperative only ["remind "] is, because the alternative [remind] of the
    prefix pattern is tried before [remind me]. *)
Theorem fallback_relative_reminder (now t : datetime) :
  add now (30 * us_per_minute) = Ok t ->
  parse_reminder_fallback "remind me to drink water in 30 minutes" now
    = Ok (Some ("me to drink water", t))
  /\ to_us t = to_us now + 30 * us_per_minute.
Proof.
  intros Hadd.
  assert (Hscan :
    scan_reminder "remind me to drink water in 30 minutes"
    = Some ("me to drink water", InUnits 30 "minutes")) by (vm_compute; reflexivity).
  unfold parse_reminder_fallback. rewrite Hscan.
  change (make_timedelta (unit_of "minutes") 30)
    with (Ok (30 * us_per_minute) : result timedelta).
  cbn [mbind result_bind]. rewrite Hadd. split; [reflexivity|].
  unfold add in Hadd.
  destruct (_ && _)%bool in Hadd; [|discriminate].
  injection Hadd as <-. apply to_us_of_us.
Qed.

Lemma fallback_relative_reminder_witness :
  parse_reminder_fallback "remind me to drink water in 30 minutes" example_now
    = Ok (Some ("me to drink water",
                {| ordinal := 739926; hour := 20; minute := 0; second := 15;
                   microsecond := 123456 |}))
  /\ to_us {| ordinal := 739926; hour := 20; minute := 0; second := 15;
              microsecond := 123456 |}
     = to_us example_now + 30 * us_per_minute.
Proof.
  apply (fallback_relative_reminder example_now). vm_compute. reflexivity.
Defined.

(** What C4 claims does not happen: without a minutes part the absolute
    grammar does not match, and nothing is returned. *)
Lemma fallback_rejects_hour_without_minutes :
  parse_reminder_fallback "set reminder at 6pm for workout" example_now = Ok None
  /\ ~ (exists t, parse_reminder_fallback "set reminder at 6pm for workout" example_now
                  = Ok (Some ("workout", t))).
Proof.
  split; [vm_compute; reflexivity|].
  intros [t Ht]. vm_compute in Ht. discriminate.
Qed.

(** C4, as the code has it: the absolute grammar is [at <H>:<MM>[am|pm]]
    with the minutes part required.  ["set reminder at 6pm for workout"]
    matches neither grammar and gives [(None, None)];
    ["set reminder at 6:00pm for workout"] gives the task ["for workout"]
    (the time phrase and the leading imperative are stripped, nothing
    else) and the fire time today at 18:00, moved to the next day when
    that is earlier than [now]. *)
Theorem fallback_absolute_reminder (now : datetime) :
  validb now = true -> ordinal now < max_ordinal ->
  parse_reminder_fallback "set reminder at 6pm for workout" now = Ok None
  /\ parse_reminder_fallback "set reminder at 6:00pm for workout" now
     = Ok (Some ("for workout",
                 if ltb (at_time now 18 0) now
                 then next_day (at_time now 18 0)
                 else at_time now 18 0)).
Proof.
  intros Hvalid Hmax. apply validb_spec in Hvalid as (Ho & _).
  assert (Hnone : scan_reminder "set reminder at 6pm for workout" = None)
    by (vm_compute; reflexivity).
  assert (Hscan :
    scan_reminder "set reminder at 6:00pm for workout"
    = Some ("for workout", AtClock 18 0)) by (vm_compute; reflexivity).
  unfold parse_reminder_fallback. rewrite Hnone, Hscan.
  split; [reflexivity|].
  change (replace_hm now 18 0) with (Ok (at_time now 18 0)).
  change (make_timedelta Days 1) with (Ok us_per_day : result timedelta).
  cbn [mbind result_bind].
  destruct (ltb (at_time now 18 0) now); [|reflexivity].
  rewrite add_one_day; [reflexivity|cbn [at_time ordinal hour minute second microsecond]; lia..].
Qed.

Lemma fallback_absolute_reminder_witness :
  parse_reminder_fallback "set reminder at 6pm for workout" example_now = Ok None
  /\ parse_reminder_fallback "set reminder at 6:00pm for workout" example_now
     = Ok (Some ("for workout",
                 if ltb (at_time example_now 18 0) example_now
                 then next_day (at_time example_now 18 0)
                 else at_time example_now 18 0)).
Proof.
  apply (fallback_absolute_reminder example_now).
  - reflexivity.
  - vm_compute. reflexivity.
Defined.

(** A confidence score below one half, as the comparison [confidence < 0.5]
    of numbers reads it. *)
Definition score_below_half (v : value) : Prop :=
  match v with
  | VFloat (FFinite q) => (q < 1 # 2)%Q
  | VFloat (FInf negative) => negative = true
  | VInt z => z <= 0
  | VBool b => b = false
  | _ => False
  end.

Lemma lt_half_spec (v : value) : lt_half v = Ok true <-> score_below_half v.
Proof.
  destruct v as [| b | z | [q| |neg] | s | t | l | d]; cbn;
    try (split; [discriminate|intros []]).
  - destruct b; cbn; split; congruence.
  - split.
    + intros H. injection H as H. apply Z.leb_le. exact H.
    + intros H. f_equal. apply Z.leb_le. exact H.
  - unfold Qlt. cbn [Qnum Qden]. split.
    + intros H. injection H as H. apply Z.ltb_lt in H. lia.
    + intros H. f_equal. apply Z.ltb_lt. lia.
  - split; congruence.
Qed.

(** C8: when the completion decodes to a JSON object whose confidence is
    below 0.5 (the key missing counts as 0), [parse_reminder_with_llm]
    returns [(None, None)] and [parse_reminder_message] returns what the
    regex fallback returns on the same message. *)
Theorem low_confidence_uses_fallback (E : env) (message content : string)
  (now_llm now_fallback : datetime) (parsed_data : gmap string value) :
  json_loads E (clean_response content) = Some (VDict parsed_data) ->
  score_below_half (get_default parsed_data "confidence" (VInt 0)) ->
  parse_reminder_with_llm E (Ok content) now_llm = None
  /\ parse_reminder_message E message (Ok content) now_llm now_fallback
     = parse_reminder_fallback message now_fallback.
Proof.
  intros Hjson Hlow. apply lt_half_spec in Hlow.
  assert (Hllm : parse_reminder_with_llm E (Ok content) now_llm = None).
  { unfold parse_reminder_with_llm, llm_parse_body. cbn [mbind result_bind].
    rewrite Hjson. cbn [mbind result_bind]. rewrite Hlow. reflexivity. }
  split; [exact Hllm|].
  unfold parse_reminder_message. rewrite Hllm. reflexivity.
Qed.

(** A decoder that knows one answer, for the examples. *)
Definition example_env : env :=
  {| json_loads := fun text =>
       if String.eqb text "{low}" then
         Some (VDict {[ "task" := VStr "drink water";
                        "time_type" := VStr "relative";
                        "relative_amount" := VInt 30;
                        "relative_unit" := VStr "minutes";
                        "confidence" := VFloat (FFinite (3 # 10)) ]})
       else if String.eqb text "{location}" then
         Some (VDict {[ "workout_location" := VStr "Home" ]})
       else None;
     timedelta_float := fun _ _ => Raise TypeError;
     calculate_bmi := fun _ _ => VNone |}.

Lemma low_confidence_uses_fallback_witness :
  parse_reminder_with_llm example_env (Ok "```json{low}```") example_now = None
  /\ parse_reminder_message example_env "remind me to stretch in 2 hours"
       (Ok "```json{low}```") example_now example_now
     = parse_reminder_fallback "remind me to stretch in 2 hours" example_now.
Proof.
  eapply (low_confidence_uses_fallback example_env).
  - vm_compute. reflexivity.
  - vm_compute. reflexivity.
Defined.

(** ** The webhook: running a handler on a known session *)

(** The state in which the session of [sender] is [sess]. *)
Definition put_session (sender : string) (sess : gmap string value) (w : world)
  : world :=
  set_user_sessions (<[sender := sess]>) w.

(** [if data.get(k): session[k] = data[k]], on the session alone. *)
Definition merge_into (data sess : gmap string value) (k : string)
  : gmap string value :=
  if truthy (get data k) then <[k := get data k]> sess else sess.

Section Running.
Variable E : env.
Variable sender : string.

Lemma put_session_known (w : world) (sess : gmap string value) :
  user_sessions w !! sender = Some sess -> put_session sender sess w = w.
Proof.
  intros Hs. destruct w as [us sch up dws au th adm logs].
  unfold put_session, set_user_sessions.
  cbn [user_sessions scheduler user_profiles daily_workout_schedule
         authorized_users threads admin_users auth_logs] in *.
  rewrite insert_id by exact Hs. reflexivity.
Qed.

Lemma put_session_twice (w : world) (s1 s2 : gmap string value) :
  put_session sender s2 (put_session sender s1 w) = put_session sender s2 w.
Proof.
  unfold put_session, set_user_sessions.
  cbn [user_sessions scheduler user_profiles daily_workout_schedule
         authorized_users threads admin_users auth_logs].
  rewrite insert_insert_eq. reflexivity.
Qed.

Lemma the_session_put (w : world) (sess : gmap string value) :
  the_session sender (put_session sender sess w) = sess.
Proof.
  unfold the_session, put_session, set_user_sessions. cbn [user_sessions].
  rewrite lookup_insert_eq. reflexivity.
Qed.

Lemma user_sessions_put (w : world) (sess : gmap string value) :
  user_sessions (put_session sender sess w) !! sender = Some sess.
Proof.
  unfold put_session, set_user_sessions. cbn [user_sessions].
  apply lookup_insert_eq.
Qed.

Lemma bind_ok {A B : Type} (m : M A) (k : A -> M B) (w w' : world) (a : A) :
  m w = (Ok a, w') -> (m ≫= k) w = k a w'.
Proof. intros Hm. unfold mbind, M_bind. rewrite Hm. reflexivity. Qed.

Lemma bind_raise {A B : Type} (m : M A) (k : A -> M B) (w w' : world) (e : exn) :
  m w = (Raise e, w') -> (m ≫= k) w = (Raise e, w').
Proof. intros Hm. unfold mbind, M_bind. rewrite Hm. reflexivity. Qed.

Lemma session_set_run (k : string) (v : value) (w : world)
  (sess : gmap string value) :
  session_set sender k v (put_session sender sess w)
  = (Ok tt, put_session sender (<[k := v]> sess) w).
Proof.
  unfold session_set, modify. rewrite the_session_put.
  f_equal. apply put_session_twice.
Qed.

Lemma session_get_run (k : string) (w : world) (sess : gmap string value) :
  session_get sender k (put_session sender sess w)
  = (Ok (get sess k), put_session sender sess w).
Proof. unfold session_get, gets. rewrite the_session_put. reflexivity. Qed.

Lemma session_item_run (k : string) (v : value) (w : world)
  (sess : gmap string value) :
  sess !! k = Some v ->
  session_item sender k (put_session sender sess w)
  = (Ok v, put_session sender sess w).
Proof. intros Hk. unfold session_item. rewrite the_session_put, Hk. reflexivity. Qed.

Lemma session_item_missing (k : string) (w : world) (sess : gmap string value) :
  sess !! k = None ->
  session_item sender k (put_session sender sess w)
  = (Raise KeyError, put_session sender sess w).
Proof. intros Hk. unfold session_item. rewrite the_session_put, Hk. reflexivity. Qed.

Lemma session_has_run (k : string) (w : world) (sess : gmap string value) :
  session_has sender k (put_session sender sess w)
  = (Ok (bool_decide (is_Some (sess !! k))), put_session sender sess w).
Proof. unfold session_has, gets. rewrite the_session_put. reflexivity. Qed.

Lemma merge_field_run (data : gmap string value) (k : string) (w : world)
  (sess : gmap string value) :
  merge_field sender data k (put_session sender sess w)
  = (Ok tt, put_session sender (merge_into data sess k) w).
Proof.
  unfold merge_field, merge_into. destruct (truthy (get data k)).
  - apply session_set_run.
  - reflexivity.
Qed.

Lemma all_get_run (ks : list string) (w : world) (sess : gmap string value) :
  all_get sender ks (put_session sender sess w)
  = (Ok (forallb (fun k => truthy (get sess k)) ks), put_session sender sess w).
Proof. unfold all_get, gets. rewrite the_session_put. reflexivity. Qed.

Lemma missing_get_run (ks : list (string * string)) (w : world)
  (sess : gmap string value) :
  missing_get sender ks (put_session sender sess w)
  = (Ok (snd <$> List.filter (fun kl => negb (truthy (get sess kl.1))) ks),
     put_session sender sess w).
Proof. unfold missing_get, gets. rewrite the_session_put. reflexivity. Qed.

Lemma modify_run (f : world -> world) (w : world) : modify f w = (Ok tt, f w).
Proof. reflexivity. Qed.

Lemma mret_run {A : Type} (a : A) (w : world) : (mret a : M A) w = (Ok a, w).
Proof. reflexivity. Qed.

(** The webhook on a known session is the handler of its stage. *)
Lemma webhook_known (inp : turn_input) (w : world) (sess : gmap string value)
  (step : value) :
  user_sessions w !! sender = Some sess ->
  sess !! "onboarding_step" = Some step ->
  whatsapp_webhook E sender inp w
  = (if eq_str step "basic" then basic_stage E sender inp
     else if eq_str step "personalize"
          then personalize_stage E sender (strip (body inp)) inp
     else if eq_str step "health" then health_stage E sender (strip (body inp)) inp
     else if eq_str step "lifestyle"
          then lifestyle_stage E sender (strip (body inp)) inp
     else if eq_str step "workout_prefs"
          then workout_prefs_stage E sender (strip (body inp)) inp
     else if eq_str step "done" then done_stage E sender (strip (body inp)) inp
     else mret no_reply) (put_session sender sess w).
Proof.
  intros Hs Hstep. unfold whatsapp_webhook.
  erewrite bind_ok; [|unfold gets; rewrite Hs; reflexivity].
  rewrite bool_decide_eq_true_2 by (eexists; reflexivity).
  rewrite <- (put_session_known w sess Hs) at 1.
  unfold dispatch_stage.
  erewrite bind_ok; [|apply session_item_run; exact Hstep]. reflexivity.
Qed.

End Running.

(** ** The onboarding stages *)

Lemma get_insert_eq (m : gmap string value) (k : string) (v : value) :
  get (<[k := v]> m) k = v.
Proof. unfold get. rewrite lookup_insert_eq. reflexivity. Qed.

Lemma get_insert_ne (m : gmap string value) (k k' : string) (v : value) :
  k <> k' -> get (<[k := v]> m) k' = get m k'.
Proof. intros Hne. unfold get. rewrite lookup_insert_ne by exact Hne. reflexivity. Qed.

Lemma get_merge_eq (data sess : gmap string value) (k : string) :
  get (merge_into data sess k) k = or_else (get data k) (get sess k).
Proof.
  unfold merge_into, or_else. destruct (truthy (get data k)); [apply get_insert_eq|reflexivity].
Qed.

Lemma lookup_merge_ne (data sess : gmap string value) (k k' : string) :
  k <> k' -> merge_into data sess k !! k' = sess !! k'.
Proof.
  intros Hne. unfold merge_into. destruct (truthy (get data k)); [|reflexivity].
  apply lookup_insert_ne. exact Hne.
Qed.

Lemma get_merge_ne (data sess : gmap string value) (k k' : string) :
  k <> k' -> get (merge_into data sess k) k' = get sess k'.
Proof. intros Hne. unfold get. rewrite lookup_merge_ne by exact Hne. reflexivity. Qed.

Ltac simpl_session :=
  repeat first
    [ rewrite get_insert_eq
    | rewrite get_merge_eq
    | rewrite lookup_insert_eq
    | rewrite get_insert_ne by discriminate
    | rewrite get_merge_ne by discriminate
    | rewrite lookup_insert_ne by discriminate
    | rewrite lookup_merge_ne by discriminate ].

Ltac step lem := erewrite bind_ok; [|lem].

Lemma webhook_workout_prefs (E : env) (sender : string) (inp : turn_input)
  (w : world) (sess : gmap string value) :
  user_sessions w !! sender = Some sess ->
  sess !! "onboarding_step" = Some (VStr "workout_prefs") ->
  whatsapp_webhook E sender inp w
  = workout_prefs_stage E sender (strip (body inp)) inp (put_session sender sess w).
Proof. intros Hs Hstep. rewrite (webhook_known E sender inp w sess _ Hs Hstep). reflexivity. Qed.

Lemma webhook_done (E : env) (sender : string) (inp : turn_input)
  (w : world) (sess : gmap string value) :
  user_sessions w !! sender = Some sess ->
  sess !! "onboarding_step" = Some (VStr "done") ->
  whatsapp_webhook E sender inp w
  = done_stage E sender (strip (body inp)) inp (put_session sender sess w).
Proof. intros Hs Hstep. rewrite (webhook_known E sender inp w sess _ Hs Hstep). reflexivity. Qed.

(** ** The authentication check *)

(** A request that the authentication check hands to the conversation
    without a call of the admin console: the message does not start with
    [ADMIN], in whatever letter case, and the sender is authorized when the
    check is made. *)
Definition ordinary_request (sender : string) (inp : turn_input) (w : world)
  : bool :=
  negb (startswith "ADMIN" (upper (strip (body inp))))
  && is_user_authorized sender (now_auth inp) w.

(** The row that the check adds to [auth_logs] for such a request. *)
Definition logged (sender : string) (w : world) : world :=
  log_auth_attempt sender "authorized_access" true w.

Lemma route_ordinary (E : env) (sender : string)
  (handle_admin_command : string -> string -> M (option string))
  (inp : turn_input) (w : world) :
  ordinary_request sender inp w = true ->
  whatsapp_route E sender handle_admin_command inp w
  = whatsapp_webhook E sender inp (logged sender w).
Proof.
  intros Hord. apply andb_true_iff in Hord as [Hadm Hauth].
  apply negb_true_iff in Hadm.
  unfold whatsapp_route, authentication_check. rewrite Hadm.
  unfold mbind, M_bind, mret, M_ret, gets, modify. rewrite Hauth. reflexivity.
Qed.

Lemma logged_put (sender : string) (sess : gmap string value) (w : world) :
  logged sender (put_session sender sess w) = put_session sender sess (logged sender w).
Proof. reflexivity. Qed.


(** ** The guard at the end of [workout_prefs] *)

(** In the conversation: a turn in stage [workout_prefs] that is not the
    skip directive and after whose merge duration and location are present,
    while weight, height or fitness goal is missing from the session. *)
Lemma backward_guard_in_conversation (E : env) (sender : string) (inp : turn_input)
  (w : world) (sess : gmap string value) :
  let workout_data := extract_workout_prefs E (completion inp) in
  user_sessions w !! sender = Some sess ->
  sess !! "onboarding_step" = Some (VStr "workout_prefs") ->
  is_skip (strip (body inp)) = false ->
  truthy (or_else (get workout_data "workout_duration")
            (get sess "workout_duration")) = true ->
  truthy (or_else (get workout_data "workout_location")
            (get sess "workout_location")) = true ->
  truthy (get sess "weight") && truthy (get sess "height")
    && truthy (get sess "fitness_goal") = false ->
  exists missing w',
    whatsapp_webhook E sender inp w = (Ok (need_critical_fields missing), w')
    /\ missing <> []
    /\ the_session sender w' !! "onboarding_step" = Some (VStr "personalize")
    /\ the_session sender w' !! "profile_completed" = sess !! "profile_completed"
    /\ user_profiles w' = user_profiles w
    /\ threads w' = threads w
    /\ scheduler w' = scheduler w.
Proof.
  intros workout_data Hs Hstep Hskip Hdur Hloc Hcrit.
  rewrite (webhook_workout_prefs E sender inp w sess Hs Hstep).
  unfold workout_prefs_stage. rewrite Hskip. fold workout_data.
  step ltac:(apply merge_field_run).
  step ltac:(apply merge_field_run).
  step ltac:(apply merge_field_run).
  step ltac:(apply session_set_run).
  step ltac:(apply session_get_run).
  assert (Hrest : forall S,
    (forall k, k <> "workout_time" ->
       get S k = get (<["exercises_to_avoid" :=
                          or_else (get workout_data "exercises_to_avoid") (VStr "None")]>
                        (merge_into workout_data
                           (merge_into workout_data
                              (merge_into workout_data sess "workout_duration")
                              "workout_location") "workout_time")) k) ->
    S !! "profile_completed" = sess !! "profile_completed" ->
    exists missing w',
      (all_get sender ["workout_duration"; "workout_location"]
         ≫= (fun filled : bool =>
               if filled
               then
                 missing_get sender critical_fields
                   ≫= (fun missing_critical : list string =>
                         match missing_critical with
                         | [] =>
                             build_profile_data sender
                               ≫= (fun profile_data : gmap string value =>
                                     modify (save_user_profile sender profile_data);;
                                     session_set sender "onboarding_step" (VStr "done");;
                                     session_set sender "profile_completed" (VBool true);;
                                     session_set sender "profile_confirmed" (VBool false);;
                                     mret profile_summary)
                         | _ :: _ =>
                             session_set sender "onboarding_step" (VStr "personalize");;
                             mret (need_critical_fields missing_critical)
                         end)
               else
                 missing_items sender
                   [("workout_duration", "duration"); ("workout_location", "location")]
                   ≫= (fun missing0 : list string => mret (workout_missing missing0))))
        (put_session sender S w)
      = (Ok (need_critical_fields missing), w')
      /\ missing <> []
      /\ the_session sender w' !! "onboarding_step" = Some (VStr "personalize")
      /\ the_session sender w' !! "profile_completed" = sess !! "profile_completed"
      /\ user_profiles w' = user_profiles w
      /\ threads w' = threads w
      /\ scheduler w' = scheduler w).
  { intros S Hget Hpc.
    step ltac:(apply all_get_run).
    cbn [forallb]. rewrite !Hget by discriminate. simpl_session.
    rewrite Hdur, Hloc. cbn [andb].
    step ltac:(apply missing_get_run).
    cbn [critical_fields List.filter fst snd negb].
    rewrite !Hget by discriminate. simpl_session.
    destruct (truthy (get sess "weight")), (truthy (get sess "height")),
      (truthy (get sess "fitness_goal")); try discriminate Hcrit;
      cbn [negb fmap list_fmap snd];
      (step ltac:(apply session_set_run));
      (eexists; eexists; split; [reflexivity|]);
      (split; [discriminate|]);
      rewrite the_session_put; simpl_session;
      (split; [reflexivity|]); (split; [exact Hpc|]);
      repeat split; reflexivity. }
  match goal with
  | |- context [if truthy ?v then mret tt else _] => destruct (truthy v)
  end.
  - step ltac:(apply mret_run). apply Hrest.
    + intros k _. reflexivity.
    + simpl_session. reflexivity.
  - step ltac:(apply session_set_run). apply Hrest.
    + intros k Hk. apply get_insert_ne. congruence.
    + simpl_session. reflexivity.
Qed.

Definition example_input (text : string) (answer : result string) : turn_input :=
  {| body := text; completion := answer; now_llm := example_now;
     now_fallback := example_now; now_naive := example_now;
     timestamp := 1793923877; now_auth := example_now |}.

(** A session that reached [workout_prefs] without weight, height or goal. *)
Definition example_prefs_session : gmap string value :=
  <["workout_duration" := VStr "30 minutes"]>
    (<["exercises_to_avoid" := VStr "burpees"]>
       (<["onboarding_step" := VStr "workout_prefs"]> (new_session example_now))).

Definition example_prefs_world : world :=
  {| user_sessions := {[ example_phone := example_prefs_session ]};
     scheduler := Some (SchedulerObj true ∅);
     user_profiles := ∅;
     daily_workout_schedule := ∅;
     authorized_users := {[ example_phone := AuthUser (Some "Asha") true None ]};
     threads := [];
     admin_users := ∅;
     auth_logs := [] |}.

(** An admin console that knows no command: the last branch of
    [handle_admin_command] (line 1379). *)
Definition example_admin_console : string -> string -> M (option string) :=
  fun _ _ =>
    mret (Some "Unknown admin command. Type 'ADMIN HELP' for available commands.").

(** What C2 claims does not happen on the skip directive.  The session has
    no weight, height or fitness goal; the turn fills in the missing
    location, so that duration and location are present, answers that the
    plan is being generated and starts the background worker; the stage is
    not set back to [personalize], and the first statements of the worker
    mark the session as completed. *)
Lemma skip_turn_is_not_set_back :
  let turn := example_input "skip" (Raise TypeError) in
  let result :=
    whatsapp_route example_env example_phone example_admin_console turn
      example_prefs_world in
  let after_turn := the_session example_phone result.2 in
  let after_worker :=
    the_session example_phone (mark_minimally_completed example_phone result.2).2 in
  (truthy (get example_prefs_session "weight") = false
   /\ truthy (get example_prefs_session "height") = false
   /\ truthy (get example_prefs_session "fitness_goal") = false)
  /\ result.1 = Ok generating_plan
  /\ get after_turn "workout_duration" = VStr "30 minutes"
  /\ get after_turn "workout_location" = VStr "Home"
  /\ get after_turn "onboarding_step" = VStr "workout_prefs"
  /\ threads result.2 = [handle_skip_and_generate_plan example_phone]
  /\ get after_worker "onboarding_step" = VStr "done"
  /\ get after_worker "profile_completed" = VBool true.
Proof. repeat split; vm_compute; reflexivity. Qed.

(** C2, as the code has it: for an authorized sender, a turn in stage
    [workout_prefs] that is neither an admin command nor the skip
    directive and after whose merge duration and location are present,
    while weight, height or fitness goal is missing from the session,
    answers by asking for the missing fields, sets the stage back to
    [personalize], leaves the durable profiles and the session's
    [profile_completed] as they were, and starts no background work. *)
Theorem workout_prefs_backward_guard (E : env) (sender : string)
  (handle_admin_command : string -> string -> M (option string))
  (inp : turn_input) (w : world) (sess : gmap string value) :
  let workout_data := extract_workout_prefs E (completion inp) in
  ordinary_request sender inp w = true ->
  user_sessions w !! sender = Some sess ->
  sess !! "onboarding_step" = Some (VStr "workout_prefs") ->
  is_skip (strip (body inp)) = false ->
  truthy (or_else (get workout_data "workout_duration")
            (get sess "workout_duration")) = true ->
  truthy (or_else (get workout_data "workout_location")
            (get sess "workout_location")) = true ->
  truthy (get sess "weight") && truthy (get sess "height")
    && truthy (get sess "fitness_goal") = false ->
  exists missing w',
    whatsapp_route E sender handle_admin_command inp w
    = (Ok (need_critical_fields missing), w')
    /\ missing <> []
    /\ the_session sender w' !! "onboarding_step" = Some (VStr "personalize")
    /\ the_session sender w' !! "profile_completed" = sess !! "profile_completed"
    /\ user_profiles w' = user_profiles w
    /\ threads w' = threads w
    /\ scheduler w' = scheduler w.
Proof.
  intros workout_data Hord Hs Hstep Hskip Hdur Hloc Hcrit.
  rewrite (route_ordinary E sender handle_admin_command inp w Hord).
  exact (backward_guard_in_conversation E sender inp (logged sender w) sess
           Hs Hstep Hskip Hdur Hloc Hcrit).
Qed.

Lemma workout_prefs_backward_guard_witness :
  exists missing w',
    whatsapp_route example_env example_phone example_admin_console
      (example_input "at home" (Ok "{location}")) example_prefs_world
    = (Ok (need_critical_fields missing), w')
    /\ missing <> []
    /\ the_session example_phone w' !! "onboarding_step" = Some (VStr "personalize")
    /\ the_session example_phone w' !! "profile_completed"
       = example_prefs_session !! "profile_completed"
    /\ user_profiles w' = user_profiles example_prefs_world
    /\ threads w' = threads example_prefs_world
    /\ scheduler w' = scheduler example_prefs_world.
Proof.
  refine (workout_prefs_backward_guard example_env example_phone
            example_admin_console
            (example_input "at home" (Ok "{location}")) example_prefs_world
            example_prefs_session _ _ _ _ _ _ _);
    [vm_compute; reflexivity|apply lookup_singleton_eq|vm_compute; reflexivity..].
Defined.

(** ** The confirmation of a completed profile *)

Definition attempts_key : string := "confirmation_attempts".

(** A reply that the confirmation handler reads as neither a yes nor a
    no. *)
Definition neither_yes_nor_no (msg_lower : string) : bool :=
  negb (mem msg_lower affirmative_words) && negb (mem msg_lower negative_words).

(** A session in the last stage whose profile is completed and not yet
    confirmed, after [n] ambiguous replies. *)
Definition awaiting_confirmation (sess : gmap string value) (n : Z)
  (history : list value) : Prop :=
  sess !! "onboarding_step" = Some (VStr "done")
  /\ truthy (get sess "profile_completed") = true
  /\ truthy (get sess "profile_confirmed") = false
  /\ (sess !! attempts_key = Some (VInt n)
      \/ (n = 0 /\ sess !! attempts_key = None))
  /\ sess !! "messages" = Some (VList history).

Lemma mark_completed_put (sender p : string) (sess : gmap string value) (w : world) :
  mark_profile_completed p (put_session sender sess w)
  = put_session sender sess (mark_profile_completed p w).
Proof. reflexivity. Qed.

Lemma start_thread_put (sender : string) (t : thread) (sess : gmap string value)
  (w : world) :
  start_thread t (put_session sender sess w)
  = put_session sender sess (start_thread t w).
Proof. reflexivity. Qed.

Lemma mem_negative (msg_lower : string) :
  mem msg_lower negative_words = true ->
  any_in reminder_keywords msg_lower = false
  /\ mem msg_lower affirmative_words = false.
Proof.
  unfold mem, negative_words. cbn [existsb]. rewrite !orb_true_iff.
  intros H. repeat destruct H as [H|H]; try discriminate;
    apply String.eqb_eq in H; subst msg_lower; split; vm_compute; reflexivity.
Qed.

Lemma append_message_run (sender content : string) (w : world)
  (sess : gmap string value) (history : list value) :
  sess !! "messages" = Some (VList history) ->
  append_message sender content (put_session sender sess w)
  = (Ok tt,
     put_session sender (<["messages" := VList (history ++ [VStr content])]> sess) w).
Proof.
  intros Hm. unfold append_message.
  step ltac:(apply session_item_run; exact Hm).
  apply session_set_run.
Qed.

(** The handler on a negative reply. *)
Lemma handler_negative (sender incoming_msg msg_lower : string) (w : world)
  (sess : gmap string value) :
  truthy (get sess "profile_completed") = true ->
  truthy (get sess "profile_confirmed") = false ->
  mem msg_lower negative_words = true ->
  exists sess',
    confirmation_handler sender incoming_msg msg_lower (put_session sender sess w)
    = (Ok (Some what_to_change), put_session sender sess' w)
    /\ sess' !! "profile_confirmed" = Some (VBool true)
    /\ sess' !! attempts_key = Some (VInt 0)
    /\ (forall k, k <> "profile_confirmed" -> k <> attempts_key ->
          sess' !! k = sess !! k).
Proof.
  intros Hcompleted Hconfirmed Hneg.
  destruct (mem_negative _ Hneg) as [_ Haff].
  unfold confirmation_handler.
  step ltac:(apply session_get_run). step ltac:(apply session_get_run).
  rewrite Hconfirmed, Hcompleted. cbn [negb andb].
  step ltac:(apply session_has_run).
  rewrite Haff, Hneg.
  destruct (bool_decide _);
    [step ltac:(apply mret_run)|step ltac:(apply session_set_run)];
    (step ltac:(apply session_set_run)); (step ltac:(apply session_set_run));
    (eexists; split; [reflexivity|]); unfold attempts_key;
    (split; [simpl_session; reflexivity|]);
    (split; [simpl_session; reflexivity|]);
    intros k Hk1 Hk2; rewrite !lookup_insert_ne by congruence; reflexivity.
Qed.

(** The handler on a reply that is neither a yes nor a no. *)
Lemma handler_ambiguous (sender incoming_msg msg_lower : string) (w : world)
  (sess : gmap string value) (n : Z) (history : list value) :
  awaiting_confirmation sess n history ->
  neither_yes_nor_no msg_lower = true ->
  exists sess',
    (forall k, k <> "profile_confirmed" -> k <> attempts_key -> k <> "messages" ->
       sess' !! k = sess !! k)
    /\ if (3 <=? n + 1)%Z
       then
         confirmation_handler sender incoming_msg msg_lower (put_session sender sess w)
         = (Ok (Some using_profile_as_is),
            start_thread (process_and_reply sender true incoming_msg)
              (put_session sender sess' (mark_profile_completed sender w)))
         /\ sess' !! "profile_confirmed" = Some (VBool true)
         /\ sess' !! attempts_key = Some (VInt 0)
         /\ sess' !! "messages" = Some (VList (history ++ [VStr first_plan_request]))
       else
         confirmation_handler sender incoming_msg msg_lower (put_session sender sess w)
         = (Ok (Some please_confirm), put_session sender sess' w)
         /\ awaiting_confirmation sess' (n + 1) history.
Proof.
  intros (Hstep & Hcompleted & Hconfirmed & Hattempts & Hmsgs) Hamb.
  unfold neither_yes_nor_no in Hamb.
  apply andb_true_iff in Hamb as [Haff Hneg].
  apply negb_true_iff in Haff, Hneg.
  assert (Hrest : forall S0,
    S0 !! attempts_key = Some (VInt n) ->
    (forall k, k <> attempts_key -> S0 !! k = sess !! k) ->
    exists sess',
      (forall k, k <> "profile_confirmed" -> k <> attempts_key -> k <> "messages" ->
         sess' !! k = sess !! k)
      /\ if (3 <=? n + 1)%Z
         then
           (attempts ← session_item sender "confirmation_attempts";
            attempts ←
              match (attempts : value) with
              | VInt n => mret (n + 1)
              | VBool b => mret ((if b then 1 else 0) + 1)
              | _ => raise TypeError
              end;
            session_set sender "confirmation_attempts" (VInt attempts);;
            if (3 <=? attempts)%Z then
              session_set sender "profile_confirmed" (VBool true);;
              session_set sender "confirmation_attempts" (VInt 0);;
              modify (mark_profile_completed sender);;
              append_message sender first_plan_request;;
              modify (start_thread (process_and_reply sender true incoming_msg));;
              mret (Some using_profile_as_is)
            else mret (Some please_confirm)) (put_session sender S0 w)
           = (Ok (Some using_profile_as_is),
              start_thread (process_and_reply sender true incoming_msg)
                (put_session sender sess' (mark_profile_completed sender w)))
           /\ sess' !! "profile_confirmed" = Some (VBool true)
           /\ sess' !! attempts_key = Some (VInt 0)
           /\ sess' !! "messages" = Some (VList (history ++ [VStr first_plan_request]))
         else
           (attempts ← session_item sender "confirmation_attempts";
            attempts ←
              match (attempts : value) with
              | VInt n => mret (n + 1)
              | VBool b => mret ((if b then 1 else 0) + 1)
              | _ => raise TypeError
              end;
            session_set sender "confirmation_attempts" (VInt attempts);;
            if (3 <=? attempts)%Z then
              session_set sender "profile_confirmed" (VBool true);;
              session_set sender "confirmation_attempts" (VInt 0);;
              modify (mark_profile_completed sender);;
              append_message sender first_plan_request;;
              modify (start_thread (process_and_reply sender true incoming_msg));;
              mret (Some using_profile_as_is)
            else mret (Some please_confirm)) (put_session sender S0 w)
           = (Ok (Some please_confirm), put_session sender sess' w)
           /\ awaiting_confirmation sess' (n + 1) history).
  { intros S0 Hn Hsame. unfold attempts_key in *.
    destruct (3 <=? n + 1)%Z eqn:Hthree.
    - step ltac:(apply session_item_run; exact Hn).
      step ltac:(apply mret_run).
      step ltac:(apply session_set_run).
      rewrite Hthree.
      step ltac:(apply session_set_run).
      step ltac:(apply session_set_run).
      step ltac:(apply modify_run). rewrite mark_completed_put.
      step ltac:(apply append_message_run; simpl_session; rewrite Hsame by discriminate;
                 exact Hmsgs).
      step ltac:(apply modify_run).
      eexists. split; [|split; [reflexivity|]].
      + intros k Hk1 Hk2 Hk3. rewrite !lookup_insert_ne by congruence.
        apply Hsame. exact Hk2.
      + split; [simpl_session; reflexivity|].
        split; [simpl_session; reflexivity|].
        simpl_session. reflexivity.
    - step ltac:(apply session_item_run; exact Hn).
      step ltac:(apply mret_run).
      step ltac:(apply session_set_run).
      rewrite Hthree.
      eexists. split; [|split; [reflexivity|]].
      + intros k Hk1 Hk2 Hk3. rewrite !lookup_insert_ne by congruence.
        apply Hsame. exact Hk2.
      + unfold awaiting_confirmation, get, attempts_key. simpl_session.
        rewrite !Hsame by discriminate.
        split; [exact Hstep|]. split; [exact Hcompleted|]. split; [exact Hconfirmed|].
        split; [left; reflexivity|exact Hmsgs]. }
  unfold confirmation_handler.
  step ltac:(apply session_get_run). step ltac:(apply session_get_run).
  rewrite Hconfirmed, Hcompleted. cbn [negb andb].
  step ltac:(apply session_has_run).
  rewrite Haff, Hneg.
  destruct Hattempts as [Hn|[-> Hnone]].
  - rewrite bool_decide_eq_true_2 by (unfold attempts_key in Hn; rewrite Hn; eexists; reflexivity).
    step ltac:(apply mret_run).
    apply Hrest; [exact Hn|reflexivity].
  - rewrite bool_decide_eq_false_2
      by (unfold attempts_key in Hnone; rewrite Hnone; intros [? ?]; discriminate).
    step ltac:(apply session_set_run).
    destruct (Hrest (<["confirmation_attempts" := VInt 0]> sess)) as (sess' & Hk & Hres).
    + apply lookup_insert_eq.
    + intros k Hk. apply lookup_insert_ne. unfold attempts_key in Hk. congruence.
    + exists sess'. split; [exact Hk|exact Hres].
Qed.

Lemma webhook_confirmation (E : env) (sender : string) (inp : turn_input)
  (w w' : world) (sess : gmap string value) (r : reply) :
  user_sessions w !! sender = Some sess ->
  sess !! "onboarding_step" = Some (VStr "done") ->
  any_in reminder_keywords (strip (lower (strip (body inp)))) = false ->
  confirmation_handler sender (strip (body inp)) (strip (lower (strip (body inp))))
    (put_session sender sess w) = (Ok (Some r), w') ->
  whatsapp_webhook E sender inp w = (Ok r, w').
Proof.
  intros Hs Hstep Hnorem Hhandler.
  rewrite (webhook_done E sender inp w sess Hs Hstep).
  unfold done_stage. cbv zeta. rewrite Hnorem.
  step ltac:(exact Hhandler). reflexivity.
Qed.

(** A session whose profile was just completed and awaits confirmation. *)
Definition example_unconfirmed_session : gmap string value :=
  <["profile_completed" := VBool true]>
    (<["onboarding_step" := VStr "done"]>
       (<["weight" := VStr "75kg"]>
          (<["name" := VStr "Asha"]> (new_session example_now)))).

Definition example_unconfirmed_world : world :=
  {| user_sessions := {[ example_phone := example_unconfirmed_session ]};
     scheduler := Some (SchedulerObj true ∅);
     user_profiles := {[ example_phone := {[ "workout_time" := VStr "Flexible" ]} ]};
     daily_workout_schedule := ∅;
     authorized_users := {[ example_phone := AuthUser (Some "Asha") true None ]};
     threads := [];
     admin_users := ∅;
     auth_logs := [] |}.

(** What C5 claims does not happen: after the reply ["no"] the session is
    confirmed. *)
Lemma negative_reply_ends_unconfirmed_state :
  truthy (get example_unconfirmed_session "profile_completed") = true
  /\ truthy (get example_unconfirmed_session "profile_confirmed") = false
  /\ (whatsapp_webhook example_env example_phone
        (example_input "no" (Raise TypeError)) example_unconfirmed_world).1
     = Ok what_to_change
  /\ get (the_session example_phone
            (whatsapp_webhook example_env example_phone
               (example_input "no" (Raise TypeError)) example_unconfirmed_world).2)
       "profile_confirmed" = VBool true.
Proof. repeat split; vm_compute; reflexivity. Qed.

(** C5, as the code has it: on a negative reply to the confirmation
    question the handler asks what to change, resets the attempt counter
    and sets [profile_confirmed] to true, so that the corrections are
    handled by the update intent; the stage stays [done] and neither the
    durable profiles, nor the scheduler, nor the background work change. *)
Theorem negative_reply_confirms_profile (E : env) (sender : string)
  (inp : turn_input) (w : world) (sess : gmap string value) :
  user_sessions w !! sender = Some sess ->
  sess !! "onboarding_step" = Some (VStr "done") ->
  truthy (get sess "profile_completed") = true ->
  truthy (get sess "profile_confirmed") = false ->
  mem (strip (lower (strip (body inp)))) negative_words = true ->
  exists w',
    whatsapp_webhook E sender inp w = (Ok what_to_change, w')
    /\ the_session sender w' !! "profile_confirmed" = Some (VBool true)
    /\ the_session sender w' !! attempts_key = Some (VInt 0)
    /\ the_session sender w' !! "onboarding_step" = Some (VStr "done")
    /\ user_profiles w' = user_profiles w
    /\ threads w' = threads w
    /\ scheduler w' = scheduler w.
Proof.
  intros Hs Hstep Hcompleted Hconfirmed Hneg.
  destruct (mem_negative _ Hneg) as [Hnorem _].
  destruct (handler_negative sender (strip (body inp)) _ w sess
              Hcompleted Hconfirmed Hneg) as (sess' & Hrun & Hpc & Hca & Hsame).
  exists (put_session sender sess' w).
  split; [eapply webhook_confirmation; eassumption|].
  rewrite the_session_put.
  split; [exact Hpc|]. split; [exact Hca|].
  split; [rewrite Hsame by discriminate; exact Hstep|].
  repeat split; reflexivity.
Qed.

Lemma negative_reply_confirms_profile_witness :
  exists w',
    whatsapp_webhook example_env example_phone
      (example_input "No " (Raise TypeError)) example_unconfirmed_world
    = (Ok what_to_change, w')
    /\ the_session example_phone w' !! "profile_confirmed" = Some (VBool true)
    /\ the_session example_phone w' !! attempts_key = Some (VInt 0)
    /\ the_session example_phone w' !! "onboarding_step" = Some (VStr "done")
    /\ user_profiles w' = user_profiles example_unconfirmed_world
    /\ threads w' = threads example_unconfirmed_world
    /\ scheduler w' = scheduler example_unconfirmed_world.
Proof.
  refine (negative_reply_confirms_profile example_env example_phone
            (example_input "No " (Raise TypeError)) example_unconfirmed_world
            example_unconfirmed_session _ _ _ _ _);
    [apply lookup_singleton_eq|vm_compute; reflexivity..].
Defined.

(** A reply that reaches the confirmation handler and is neither a yes
    nor a no. *)
Definition reaches_handler_ambiguous (inp : turn_input) : bool :=
  let msg_lower := strip (lower (strip (body inp))) in
  negb (any_in reminder_keywords msg_lower) && neither_yes_nor_no msg_lower.

Lemma route_confirmation (E : env) (sender : string)
  (handle_admin_command : string -> string -> M (option string))
  (inp : turn_input) (w w' : world) (sess : gmap string value) (r : reply) :
  ordinary_request sender inp w = true ->
  user_sessions w !! sender = Some sess ->
  sess !! "onboarding_step" = Some (VStr "done") ->
  any_in reminder_keywords (strip (lower (strip (body inp)))) = false ->
  confirmation_handler sender (strip (body inp)) (strip (lower (strip (body inp))))
    (put_session sender sess (logged sender w)) = (Ok (Some r), w') ->
  whatsapp_route E sender handle_admin_command inp w = (Ok r, w').
Proof.
  intros Hord Hs Hstep Hnorem Hhandler.
  rewrite (route_ordinary E sender handle_admin_command inp w Hord).
  exact (webhook_confirmation E sender inp (logged sender w) w' sess r
           Hs Hstep Hnorem Hhandler).
Qed.

(** What C6 claims does not happen for every ambiguous reply.  Three
    replies ["alarm"] are neither a yes nor a no, go to the reminder parser
    and leave the profile unconfirmed, with no plan generation started.
    Three replies ["admin?"] of a sender who is no admin are neither a yes
    nor a no either; each is refused by the authentication check, and the
    session, the durable profiles and the background work stay as they
    were. *)
Lemma three_replies_without_confirmation :
  let turn inp w :=
    whatsapp_route example_env example_phone example_admin_console inp w in
  let reply_alarm := example_input "alarm" (Raise TypeError) in
  let reply_admin := example_input "admin?" (Raise TypeError) in
  let after inp :=
    (turn inp (turn inp (turn inp example_unconfirmed_world).2).2).2 in
  (neither_yes_nor_no "alarm" = true
   /\ get (the_session example_phone (after reply_alarm)) "profile_confirmed"
      = VBool false
   /\ threads (after reply_alarm) = [])
  /\ (neither_yes_nor_no "admin?" = true
      /\ (turn reply_admin example_unconfirmed_world).1 = Ok admin_denied
      /\ user_sessions (after reply_admin)
         = user_sessions example_unconfirmed_world
      /\ user_profiles (after reply_admin)
         = user_profiles example_unconfirmed_world
      /\ threads (after reply_admin) = []).
Proof. repeat split; vm_compute; reflexivity. Qed.

(** C6, as the code has it: the sender is authorized at each of three
    consecutive requests, none of which starts with [ADMIN]; the session
    awaits confirmation with no ambiguous reply counted yet; the three
    replies contain no reminder keyword and are neither a yes nor a no.
    Then they are answered by two re-prompts and the auto-confirmation.
    After the third, [profile_confirmed] is true, the counter is back to 0,
    the profile row of the sender is marked completed in the durable store,
    and plan generation has been started exactly once, by the third
    reply.  The table of authorized users is the same at the three
    requests, so the three authorizations are read from it as it was at
    the first. *)
Theorem three_ambiguous_replies_confirm (E : env) (sender : string)
  (handle_admin_command : string -> string -> M (option string))
  (i1 i2 i3 : turn_input) (w : world) (sess : gmap string value)
  (history : list value) :
  user_sessions w !! sender = Some sess ->
  awaiting_confirmation sess 0 history ->
  ordinary_request sender i1 w = true ->
  ordinary_request sender i2 w = true ->
  ordinary_request sender i3 w = true ->
  reaches_handler_ambiguous i1 = true ->
  reaches_handler_ambiguous i2 = true ->
  reaches_handler_ambiguous i3 = true ->
  exists w1 w2 w3,
    whatsapp_route E sender handle_admin_command i1 w = (Ok please_confirm, w1)
    /\ whatsapp_route E sender handle_admin_command i2 w1
       = (Ok please_confirm, w2)
    /\ whatsapp_route E sender handle_admin_command i3 w2
       = (Ok using_profile_as_is, w3)
    /\ the_session sender w3 !! "profile_confirmed" = Some (VBool true)
    /\ the_session sender w3 !! attempts_key = Some (VInt 0)
    /\ user_profiles w3
       = alter (<["profile_completed" := VBool true]>) sender (user_profiles w)
    /\ threads w1 = threads w
    /\ threads w2 = threads w
    /\ threads w3
       = (threads w ++ [process_and_reply sender true (strip (body i3))])%list
    /\ scheduler w3 = scheduler w
    /\ authorized_users w1 = authorized_users w
    /\ authorized_users w2 = authorized_users w.
Proof.
  intros Hs Hwait Ho1 Ho2 Ho3 H1 H2 H3.
  unfold reaches_handler_ambiguous in H1, H2, H3. cbv zeta in H1, H2, H3.
  apply andb_true_iff in H1 as [Hr1 Ha1]. apply negb_true_iff in Hr1.
  apply andb_true_iff in H2 as [Hr2 Ha2]. apply negb_true_iff in Hr2.
  apply andb_true_iff in H3 as [Hr3 Ha3]. apply negb_true_iff in Hr3.
  pose proof Hwait as (Hstep & _).
  set (l0 := logged sender w).
  destruct (handler_ambiguous sender (strip (body i1)) _ l0 sess 0 history Hwait Ha1)
    as (s1 & _ & Hrun1). cbn in Hrun1. destruct Hrun1 as [Hrun1 Hwait1].
  pose proof Hwait1 as (Hstep1 & _).
  set (w1 := put_session sender s1 l0) in *.
  destruct (handler_ambiguous sender (strip (body i2)) _
              (logged sender w1) s1 1 history Hwait1 Ha2)
    as (s2 & _ & Hrun2). cbn in Hrun2. destruct Hrun2 as [Hrun2 Hwait2].
  pose proof Hwait2 as (Hstep2 & _).
  set (w2 := put_session sender s2 (logged sender w1)) in *.
  destruct (handler_ambiguous sender (strip (body i3)) _
              (logged sender w2) s2 2 history Hwait2 Ha3)
    as (s3 & _ & Hrun3). cbn in Hrun3. destruct Hrun3 as (Hrun3 & Hpc & Hca & _).
  exists w1, w2. eexists.
  split; [exact (route_confirmation E sender handle_admin_command i1 w w1 sess _
                   Ho1 Hs Hstep Hr1 Hrun1)|].
  split; [exact (route_confirmation E sender handle_admin_command i2 w1 w2 s1 _
                   Ho2 (user_sessions_put sender l0 s1) Hstep1 Hr2 Hrun2)|].
  split; [exact (route_confirmation E sender handle_admin_command i3 w2 _ s2 _
                   Ho3 (user_sessions_put sender (logged sender w1) s2)
                   Hstep2 Hr3 Hrun3)|].
  rewrite start_thread_put, the_session_put.
  split; [exact Hpc|]. split; [exact Hca|].
  repeat split; reflexivity.
Qed.

Lemma three_ambiguous_replies_confirm_witness :
  exists w1 w2 w3,
    whatsapp_route example_env example_phone example_admin_console
      (example_input "hmm" (Raise TypeError)) example_unconfirmed_world
    = (Ok please_confirm, w1)
    /\ whatsapp_route example_env example_phone example_admin_console
         (example_input "what?" (Raise TypeError)) w1 = (Ok please_confirm, w2)
    /\ whatsapp_route example_env example_phone example_admin_console
         (example_input "not sure" (Raise TypeError)) w2
       = (Ok using_profile_as_is, w3)
    /\ the_session example_phone w3 !! "profile_confirmed" = Some (VBool true)
    /\ the_session example_phone w3 !! attempts_key = Some (VInt 0)
    /\ user_profiles w3
       = alter (<["profile_completed" := VBool true]>) example_phone
           (user_profiles example_unconfirmed_world)
    /\ threads w1 = threads example_unconfirmed_world
    /\ threads w2 = threads example_unconfirmed_world
    /\ threads w3
       = (threads example_unconfirmed_world
          ++ [process_and_reply example_phone true
                (strip (body (example_input "not sure" (Raise TypeError))))])%list
    /\ scheduler w3 = scheduler example_unconfirmed_world
    /\ authorized_users w1 = authorized_users example_unconfirmed_world
    /\ authorized_users w2 = authorized_users example_unconfirmed_world.
Proof.
  refine (three_ambiguous_replies_confirm example_env example_phone
            example_admin_console
            (example_input "hmm" (Raise TypeError))
            (example_input "what?" (Raise TypeError))
            (example_input "not sure" (Raise TypeError))
            example_unconfirmed_world example_unconfirmed_session []
            _ _ _ _ _ _ _ _);
    [apply lookup_singleton_eq| |vm_compute; reflexivity..].
  unfold awaiting_confirmation.
  split; [vm_compute; reflexivity|]. split; [vm_compute; reflexivity|].
  split; [vm_compute; reflexivity|].
  split; [right; split; [reflexivity|vm_compute; reflexivity]|].
  vm_compute; reflexivity.
Defined.

(** ** Partial progress across re-prompts *)

Lemma lookup_merge_is_Some (data sess : gmap string value) (k k' : string) :
  is_Some (sess !! k') -> is_Some (merge_into data sess k !! k').
Proof.
  intros Hk. unfold merge_into. destruct (truthy (get data k)); [|exact Hk].
  destruct (decide (k = k')) as [->|Hne].
  - rewrite lookup_insert_eq. eexists; reflexivity.
  - rewrite lookup_insert_ne by exact Hne. exact Hk.
Qed.

Lemma lookup_insert_is_Some' (sess : gmap string value) (k k' : string) (v : value) :
  is_Some (sess !! k') -> is_Some (<[k := v]> sess !! k').
Proof.
  intros Hk. destruct (decide (k = k')) as [->|Hne].
  - rewrite lookup_insert_eq. eexists; reflexivity.
  - rewrite lookup_insert_ne by exact Hne. exact Hk.
Qed.

Lemma missing_items_run (sender : string) (ks : list (string * string)) (w : world)
  (sess : gmap string value) :
  Forall (fun kl => is_Some (sess !! kl.1)) ks ->
  missing_items sender ks (put_session sender sess w)
  = (Ok (snd <$> List.filter (fun kl => negb (truthy (get sess kl.1))) ks),
     put_session sender sess w).
Proof.
  induction 1 as [|[k label] ks [v Hv] _ IH]; [reflexivity|].
  cbn [missing_items]. cbn [fst] in Hv.
  step ltac:(apply session_item_run; exact Hv).
  step ltac:(exact IH).
  cbn [List.filter fst].
  replace (get sess k) with v by (unfold get; rewrite Hv; reflexivity).
  destruct (truthy v); reflexivity.
Qed.

(** C7, where the code departs from it: a [workout_prefs] turn that
    re-prompts (duration or location still missing after the merge) and
    whose extraction has no [exercises_to_avoid] stores the string ["None"]
    under [exercises_to_avoid], whatever the session held there; the three
    other fields of the stage are merged and the stage is kept. *)
Theorem workout_prefs_reprompt_resets_avoid (E : env) (sender : string)
  (inp : turn_input) (w : world) (sess : gmap string value) :
  let workout_data := extract_workout_prefs E (completion inp) in
  user_sessions w !! sender = Some sess ->
  sess !! "onboarding_step" = Some (VStr "workout_prefs") ->
  is_skip (strip (body inp)) = false ->
  truthy (get workout_data "exercises_to_avoid") = false ->
  truthy (or_else (get workout_data "workout_duration")
            (get sess "workout_duration"))
  && truthy (or_else (get workout_data "workout_location")
               (get sess "workout_location")) = false ->
  is_Some (sess !! "workout_duration") ->
  is_Some (sess !! "workout_location") ->
  exists missing w',
    whatsapp_webhook E sender inp w = (Ok (workout_missing missing), w')
    /\ the_session sender w' !! "onboarding_step" = Some (VStr "workout_prefs")
    /\ the_session sender w' !! "exercises_to_avoid" = Some (VStr "None")
    /\ get (the_session sender w') "workout_duration"
       = or_else (get workout_data "workout_duration") (get sess "workout_duration")
    /\ get (the_session sender w') "workout_location"
       = or_else (get workout_data "workout_location") (get sess "workout_location").
Proof.
  intros workout_data Hs Hstep Hskip Havoid Hreq Hdur Hloc.
  rewrite (webhook_workout_prefs E sender inp w sess Hs Hstep).
  unfold workout_prefs_stage. rewrite Hskip. fold workout_data.
  step ltac:(apply merge_field_run).
  step ltac:(apply merge_field_run).
  step ltac:(apply merge_field_run).
  step ltac:(apply session_set_run).
  step ltac:(apply session_get_run).
  replace (or_else (get workout_data "exercises_to_avoid") (VStr "None"))
    with (VStr "None") by (unfold or_else; rewrite Havoid; reflexivity).
  set (S3 := <["exercises_to_avoid" := VStr "None"]> _).
  assert (Hrest : forall S,
    (forall k, k <> "workout_time" -> S !! k = S3 !! k) ->
    exists missing w',
      (all_get sender ["workout_duration"; "workout_location"]
         ≫= (fun filled : bool =>
               if filled
               then
                 missing_get sender critical_fields
                   ≫= (fun missing_critical : list string =>
                         match missing_critical with
                         | [] =>
                             build_profile_data sender
                               ≫= (fun profile_data : gmap string value =>
                                     modify (save_user_profile sender profile_data);;
                                     session_set sender "onboarding_step" (VStr "done");;
                                     session_set sender "profile_completed" (VBool true);;
                                     session_set sender "profile_confirmed" (VBool false);;
                                     mret profile_summary)
                         | _ :: _ =>
                             session_set sender "onboarding_step" (VStr "personalize");;
                             mret (need_critical_fields missing_critical)
                         end)
               else
                 missing_items sender
                   [("workout_duration", "duration"); ("workout_location", "location")]
                   ≫= (fun missing0 : list string => mret (workout_missing missing0))))
        (put_session sender S w)
      = (Ok (workout_missing missing), w')
      /\ the_session sender w' !! "onboarding_step" = Some (VStr "workout_prefs")
      /\ the_session sender w' !! "exercises_to_avoid" = Some (VStr "None")
      /\ get (the_session sender w') "workout_duration"
         = or_else (get workout_data "workout_duration") (get sess "workout_duration")
      /\ get (the_session sender w') "workout_location"
         = or_else (get workout_data "workout_location") (get sess "workout_location")).
  { intros S Hsame.
    assert (Hget : forall k, k <> "workout_time" -> get S k = get S3 k)
      by (intros k Hk; unfold get; rewrite Hsame by exact Hk; reflexivity).
    step ltac:(apply all_get_run).
    cbn [forallb]. rewrite !Hget by discriminate. subst S3. simpl_session.
    rewrite andb_true_r, Hreq.
    step ltac:(apply missing_items_run;
               apply List.Forall_cons; [|apply List.Forall_cons; [|apply List.Forall_nil]];
               cbn [fst]; rewrite Hsame by discriminate;
               apply lookup_insert_is_Some'; repeat apply lookup_merge_is_Some;
               assumption).
    eexists _, _. split; [reflexivity|]. rewrite the_session_put.
    rewrite !Hsame, !Hget by discriminate. simpl_session.
    split; [exact Hstep|]. repeat split; reflexivity. }
  match goal with
  | |- context [if truthy ?v then mret tt else _] => destruct (truthy v)
  end.
  - step ltac:(apply mret_run). apply Hrest. intros k _. reflexivity.
  - step ltac:(apply session_set_run). apply Hrest.
    intros k Hk. apply lookup_insert_ne. congruence.
Qed.

(** The same turn on a session that held ["burpees"]. *)
Lemma workout_prefs_reprompt_resets_avoid_witness :
  example_prefs_session !! "exercises_to_avoid" = Some (VStr "burpees")
  /\ exists missing w',
       whatsapp_webhook example_env example_phone
         (example_input "in the evening" (Ok "not json")) example_prefs_world
       = (Ok (workout_missing missing), w')
       /\ the_session example_phone w' !! "onboarding_step"
          = Some (VStr "workout_prefs")
       /\ the_session example_phone w' !! "exercises_to_avoid" = Some (VStr "None")
       /\ get (the_session example_phone w') "workout_duration"
          = or_else
              (get (extract_workout_prefs example_env
                      (completion (example_input "in the evening" (Ok "not json"))))
                 "workout_duration")
              (get example_prefs_session "workout_duration")
       /\ get (the_session example_phone w') "workout_location"
          = or_else
              (get (extract_workout_prefs example_env
                      (completion (example_input "in the evening" (Ok "not json"))))
                 "workout_location")
              (get example_prefs_session "workout_location").
Proof.
  split; [vm_compute; reflexivity|].
  refine (workout_prefs_reprompt_resets_avoid example_env example_phone
            (example_input "in the evening" (Ok "not json")) example_prefs_world
            example_prefs_session _ _ _ _ _ _ _);
    [apply lookup_singleton_eq|vm_compute; reflexivity..| |];
    vm_compute; eexists; reflexivity.
Defined.

(** * Further properties of the two files *)

(** ** Single profile columns *)

(** [mark_profile_completed] is [update_profile_field] on the column
    [profile_completed]. *)
Lemma mark_profile_completed_is_update (phone_number : string) (w : world) :
  mark_profile_completed phone_number w
  = (update_profile_field phone_number "profile_completed" (VBool true) w).2.
Proof.
  unfold mark_profile_completed, update_profile_field. cbn [existsb allowed_fields negb].
  change (negb _) with false. cbv iota.
  destruct w as [us sch up dws au th adm logs]. unfold set_user_profiles.
  cbn [user_sessions scheduler user_profiles daily_workout_schedule
         authorized_users threads admin_users auth_logs].
  destruct (up !! phone_number) as [row|] eqn:Hrow; cbn [snd].
  - f_equal. apply map_eq. intros k. rewrite lookup_alter.
    destruct (decide (phone_number = k)) as [<-|Hne].
    + rewrite lookup_insert_eq, Hrow. reflexivity.
    + rewrite lookup_insert_ne by exact Hne. reflexivity.
  - f_equal. apply map_eq. intros k. rewrite lookup_alter.
    destruct (decide (phone_number = k)) as [<-|Hne]; [rewrite Hrow|]; reflexivity.
Qed.

(** ** Registration outcomes *)



(** ** Schedule times *)







(** ** The schedule table *)






(** ** Recovery at startup *)



(** ** One-off reminders *)










(** ** The authentication check *)













(** ** The confirmation on the route *)



(** ** Senders without a session *)








(** ** The skip directive in [workout_prefs] *)





